(** * Foldable table nameplates: a shallow embedding of [generate_nameplates.py]

    The program lays out one A4 page per name: the name and a logo are drawn
    upright in the upper half of the page and once more, turned by 180
    degrees, in the lower half, so that the folded sheet reads correctly from
    both sides.

    Modelling choices.
    - A Python [str] is a list of Unicode code points ([len] counts them).
    - The coordinates the program hands to the canvas are modelled by
      exact rationals ([Q]) wherever a statement is about which expression
      is computed.  Where a statement depends on the rounding of the
      doubles the interpreter computes with, the same source expressions
      are evaluated in binary64 (module [Double]).
    - Exceptions and the mutable objects the program touches (standard
      output, the canvas, the files it writes) are threaded through a small
      state-and-exception monad.
    - [reportlab] and the file system are outside the repository.  Their
      constants and the answers of their calls are collected in a [World];
      the canvas is modelled as a recorder of the calls made on it, page by
      page. *)

From Stdlib Require Import List Bool Arith ZArith NArith QArith Lia Lqa.
From Stdlib Require Import Ascii String.
From Stdlib Require PrimFloat.
Import ListNotations.

Set Implicit Arguments.

(* ------------------------------------------------------------------ *)
(** * Python strings *)

(** A code point. *)
Definition char := N.

(** [str]: an immutable sequence of code points. *)
Definition str := list char.

(** File names are strings. *)
Definition path := str.

Module Py.

Definition len (s : str) : nat := List.length s.

(** A literal made of ASCII characters. *)
Definition lit (s : string) : str :=
  List.map N_of_ascii (list_ascii_of_string s).

Definition LF : char := 10%N.
Definition CR : char := 13%N.

(** [c.isspace()] for a single code point: the code points CPython's
    [str.strip()] removes when called without argument. *)
Definition isspace (c : char) : bool :=
  ((9 <=? c) && (c <=? 13)          (* \t \n \v \f \r *)
   || (28 <=? c) && (c <=? 32)      (* FS GS RS US and the space *)
   || (c =? 133) || (c =? 160)      (* NEL, no-break space *)
   || (c =? 5760)                   (* U+1680 *)
   || (8192 <=? c) && (c <=? 8202)  (* U+2000 .. U+200A *)
   || (c =? 8232) || (c =? 8233)    (* U+2028, U+2029 *)
   || (c =? 8239) || (c =? 8287)    (* U+202F, U+205F *)
   || (c =? 12288))%N%bool.         (* U+3000 *)

(** [s.lstrip()] *)
Fixpoint lstrip (s : str) : str :=
  match s with
  | [] => []
  | c :: s' => if isspace c then lstrip s' else s
  end.

(** [s.rstrip()] *)
Definition rstrip (s : str) : str := rev (lstrip (rev s)).

(** [s.strip()] *)
Definition strip (s : str) : str := rstrip (lstrip s).

(** Truth value of a string: [if s:] holds for the non-empty ones. *)
Definition truthy (s : str) : bool :=
  match s with [] => false | _ :: _ => true end.

Definition eqb (a b : str) : bool :=
  if list_eq_dec N.eq_dec a b then true else false.

(** The lines a text file opened with [open(path, 'r')] yields when it is
    iterated: universal newlines, so a line ends at "\n", "\r" or "\r\n",
    the line end is handed over as a single "\n", and every line but
    possibly the last one carries it.  [cur] holds the characters of the
    line in progress, last one first. *)
Fixpoint iter_lines (cur : str) (text : str) : list str :=
  match text with
  | [] => match cur with [] => [] | _ :: _ => [rev cur] end
  | c :: rest =>
      if (c =? LF)%N then rev (LF :: cur) :: iter_lines [] rest
      else if (c =? CR)%N then
        match rest with
        | c' :: rest' =>
            if (c' =? LF)%N then rev (LF :: cur) :: iter_lines [] rest'
            else rev (LF :: cur) :: iter_lines [] rest
        | [] => rev (LF :: cur) :: iter_lines [] rest
        end
      else iter_lines (c :: cur) rest
  end.

Definition lines (text : str) : list str := iter_lines [] text.

End Py.

(** A string made of whitespace only. *)
Definition blank (s : str) : bool := forallb Py.isspace s.

(* ------------------------------------------------------------------ *)
(** * Effects: state and exceptions *)

(** The exceptions the modelled calls can raise. *)
Inductive exn : Type :=
| OSError (file : path)          (* a file could not be opened, decoded
                                    or created *)
| TTFError (file : path)         (* TTFont(...) rejected the font file *)
| ImageError (file : path).      (* drawImage could not load the image *)

Inductive Result (S A : Type) : Type :=
| Ok (a : A) (s : S)
| Raise (e : exn) (s : S).

Arguments Ok {S A} a s.
Arguments Raise {S A} e s.

(** A computation over a state [S] that returns an [A] or raises. *)
Definition M (S A : Type) : Type := S -> Result S A.

Definition ret {S A} (a : A) : M S A := fun s => Ok a s.

Definition bind {S A B} (m : M S A) (k : A -> M S B) : M S B :=
  fun s => match m s with
           | Ok a s' => k a s'
           | Raise e s' => Raise e s'
           end.

Definition raise {S A} (e : exn) : M S A := fun s => Raise e s.

Definition modify {S} (f : S -> S) : M S unit := fun s => Ok tt (f s).

(** [try: m except Exception as e: h e] *)
Definition try_except {S A} (m : M S A) (h : exn -> M S A) : M S A :=
  fun s => match m s with
           | Ok a s' => Ok a s'
           | Raise e s' => h e s'
           end.

Declare Scope py_scope.
Delimit Scope py_scope with py.
Notation "x <- m ;; k" := (bind m (fun x => k))
  (at level 100, m at next level, right associativity) : py_scope.
Notation "m ;; k" := (bind m (fun _ => k))
  (at level 100, right associativity) : py_scope.

(** [for x in xs: body x] *)
Fixpoint for_each {S A} (xs : list A) (body : A -> M S unit) : M S unit :=
  match xs with
  | [] => ret tt
  | x :: xs' => (body x ;; for_each xs' body)%py
  end.

Definition state_of {S A} (r : Result S A) : S :=
  match r with Ok _ s => s | Raise _ s => s end.

Definition returned {S A} (r : Result S A) : bool :=
  match r with Ok _ _ => true | Raise _ _ => false end.

(* ------------------------------------------------------------------ *)
(** * The world outside the repository *)

(** The two fonts the generator ever selects. *)
Inductive font_name : Type :=
| CustomFont     (* 'CustomFont', the registered TTF font *)
| Helvetica.     (* 'Helvetica', built into every PDF reader *)

(** What the program can observe of its environment.  [mm] and [A4] are the
    constants of [reportlab.lib.units] and [reportlab.lib.pagesizes]; the
    other fields answer the calls the program makes. *)
Record World : Type := {
  mm : Q;
  A4 : Q * Q;
  (** [os.path.exists] *)
  path_exists : path -> bool;
  (** the decoded text [open(p, 'r', encoding='utf-8')] reads, [None] when
      opening or decoding fails *)
  file_text : path -> option str;
  (** whether [TTFont('CustomFont', p)] accepts the file *)
  ttf_loadable : path -> bool;
  (** whether [drawImage] can load the file *)
  image_loadable : path -> bool;
  (** [stringWidth(text, fontName, fontSize)]: the glyph metrics *)
  string_width : str -> font_name -> Z -> Q;
  (** whether [save()] can create the output file *)
  creatable : path -> bool
}.

(** Lines printed on standard output. *)
Inductive message : Type :=
| WarnFontNotFound (font_path : path)
| WarnLogoNotLoaded (e : exn)
| WarnLogoNotFound (logo_path : path)
| MsgGenerated (output_path : path)
| MsgTotalPages (n : nat)
| ErrNamesNotFound (names_file : path)
| ErrLogoNotFound (logo : path)
| ErrFontNotFound (font : path)
| ErrNoNames
| MsgLoaded (n : nat) (names_file : path).

(** One call recorded in the content of a page. *)
Inductive op : Type :=
| SaveState
| RestoreState
| SetFont (psfontname : font_name) (size : Z)
| Translate (dx dy : Q)
| Rotate (theta : Z)
| DrawString (x y : Q) (text : str)
| DrawImage (image : path) (x y width height : Q).

Definition page := list op.
Definition document := list page.

(** The process: what it has printed and the documents it has written. *)
Record Proc : Type := {
  stdout : list message;
  written : list (path * document)
}.

Definition print_proc (m : message) (p : Proc) : Proc :=
  {| stdout := stdout p ++ [m]; written := written p |}.

Definition write_file (f : path) (d : document) (p : Proc) : Proc :=
  {| stdout := stdout p; written := written p ++ [(f, d)] |}.

(** ** [reportlab.pdfgen.canvas.Canvas] *)

Module Canvas.

(** The canvas accumulates the content of the page in progress in [_code]
    and the finished pages in [_pages]. *)
Record t : Type := {
  _filename : path;
  _pagesize : Q * Q;
  _code : page;
  _pages : document
}.

(** [canvas.Canvas(filename, pagesize=pagesize)] *)
Definition init (filename : path) (pagesize : Q * Q) : t :=
  {| _filename := filename; _pagesize := pagesize;
     _code := []; _pages := [] |}.

Definition emit (o : op) (c : t) : t :=
  {| _filename := _filename c; _pagesize := _pagesize c;
     _code := _code c ++ [o]; _pages := _pages c |}.

(** Closes the page in progress and starts an empty one. *)
Definition show_page (c : t) : t :=
  {| _filename := _filename c; _pagesize := _pagesize c;
     _code := []; _pages := _pages c ++ [_code c] |}.

(** The pages [save()] writes: "if there is current data a showPage is
    executed automatically". *)
Definition flush (c : t) : t :=
  match _code c with
  | [] => c
  | _ :: _ => show_page c
  end.

End Canvas.

(** The state while a canvas is alive: the canvas [c] and the process. *)
Record Draw : Type := {
  c : Canvas.t;
  proc : Proc
}.

Definition on_canvas (f : Canvas.t -> Canvas.t) : M Draw unit :=
  modify (fun d => {| c := f (c d); proc := proc d |}).

(** States that have a standard output. *)
Class Console (S : Type) : Type := put_line : message -> S -> S.

#[export] Instance Console_Proc : Console Proc := print_proc.
#[export] Instance Console_Draw : Console Draw :=
  fun m d => {| c := c d; proc := print_proc m (proc d) |}.

(** [print(m)] *)
Definition print {S} `{Console S} (m : message) : M S unit :=
  modify (put_line m).

(** Runs [m] with a fresh local canvas; the canvas is dropped afterwards,
    also when [m] raises. *)
Definition with_canvas {A} (c0 : Canvas.t) (m : M Draw A) : M Proc A :=
  fun p => match m {| c := c0; proc := p |} with
           | Ok a d => Ok a (proc d)
           | Raise e d => Raise e (proc d)
           end.

Section CanvasCalls.

Variable W : World.

Definition saveState : M Draw unit := on_canvas (Canvas.emit SaveState).
Definition restoreState : M Draw unit := on_canvas (Canvas.emit RestoreState).

Definition setFont (psfontname : font_name) (size : Z) : M Draw unit :=
  on_canvas (Canvas.emit (SetFont psfontname size)).

Definition stringWidth (text : str) (fontName : font_name) (fontSize : Z)
  : M Draw Q :=
  ret (string_width W text fontName fontSize).

Definition translate (dx dy : Q) : M Draw unit :=
  on_canvas (Canvas.emit (Translate dx dy)).

Definition rotate (theta : Z) : M Draw unit :=
  on_canvas (Canvas.emit (Rotate theta)).

Definition drawString (x y : Q) (text : str) : M Draw unit :=
  on_canvas (Canvas.emit (DrawString x y text)).

(** [drawImage(image, x, y, width=, height=, preserveAspectRatio=True,
    mask='auto')]: nothing reaches the page when the image cannot be
    loaded. *)
Definition drawImage (image : path) (x y width height : Q) : M Draw unit :=
  if image_loadable W image
  then on_canvas (Canvas.emit (DrawImage image x y width height))
  else raise (ImageError image).

Definition showPage : M Draw unit := on_canvas Canvas.show_page.

(** [save()]: closes a page in progress, then writes the document; the
    exception of the operating system comes up when the file cannot be
    created. *)
Definition save : M Draw unit :=
  (on_canvas Canvas.flush ;;
   fun d =>
     if creatable W (Canvas._filename (c d))
     then Ok tt {| c := c d;
                   proc := write_file (Canvas._filename (c d))
                                      (Canvas._pages (c d)) (proc d) |}
     else Raise (OSError (Canvas._filename (c d))) d)%py.

End CanvasCalls.

(* ------------------------------------------------------------------ *)
(** * The program *)

Module NameplateGenerator.

(** The attributes [__init__] sets on [self]; none changes afterwards. *)
Record self_ : Type := {
  logo_path : path;
  font_path : path;
  output_path : path;
  page_width : Q;
  page_height : Q;
  fold_line : Q;
  logo_size : Q;
  font_size_large : Z;
  font_size_medium : Z;
  font_name_ : font_name
}.

Section Methods.

Variable W : World.

(** [NameplateGenerator(logo_path, font_path, output_path)] *)
Definition __init__ (logo_path font_path output_path : path)
  : M Proc self_ :=
  (let page_width := fst (A4 W) in
   let page_height := snd (A4 W) in
   let mk := fun fname =>
     {| logo_path := logo_path;
        font_path := font_path;
        output_path := output_path;
        page_width := page_width;
        page_height := page_height;
        fold_line := page_height / 2;
        logo_size := 30 * mm W;
        font_size_large := 48;
        font_size_medium := 36;
        font_name_ := fname |} in
   if path_exists W font_path then
     (if ttf_loadable W font_path then ret tt
      else raise (TTFError font_path)) ;;
     ret (mk CustomFont)
   else
     print (WarnFontNotFound font_path) ;;
     ret (mk Helvetica))%py.

Variable self : self_.

(** [self._draw_logo(c, x, y, width, height)] *)
Definition _draw_logo (x y width height : Q) : M Draw unit :=
  if path_exists W (logo_path self) then
    try_except
      (drawImage W (logo_path self) x y width height)
      (fun e => print (WarnLogoNotLoaded e))
  else
    print (WarnLogoNotFound (logo_path self)).

(** The font size [_draw_name] picks for a name. *)
Definition font_size (name : str) : Z :=
  if (30 <? Py.len name)%nat
  then font_size_medium self
  else font_size_large self.

(** [self._draw_name(c, name, x, y, rotation)] *)
Definition _draw_name (name : str) (x y : Q) (rotation : Z)
  : M Draw unit :=
  (saveState ;;
   let font_size := font_size name in
   setFont (font_name_ self) font_size ;;
   text_width <- stringWidth W name (font_name_ self) font_size ;;
   (if (rotation =? 180)%Z then
      translate x y ;;
      rotate rotation ;;
      drawString (- text_width / 2) 0 name
    else
      drawString (x - text_width / 2) y name) ;;
   restoreState)%py.

(** The values the loop body of [generate] computes. *)
Definition logo_margin : Q := 10 * mm W.
Definition name_y : Q :=
  fold_line self + (page_height self - fold_line self) / 2.
Definition logo_x : Q := page_width self - logo_margin - logo_size self.
Definition logo_y : Q := fold_line self - logo_margin - logo_size self.
Definition name_y_bottom : Q := fold_line self / 2.

(** The body of the loop of [generate]. *)
Definition generate_body (name : str) : M Draw unit :=
  (_draw_logo logo_margin (fold_line self + logo_margin)
              (logo_size self) (logo_size self) ;;
   _draw_name name (page_width self / 2) name_y 0 ;;
   _draw_logo logo_x logo_y (logo_size self) (logo_size self) ;;
   _draw_name name (page_width self / 2) name_y_bottom 180 ;;
   showPage)%py.

(** [self.generate(names)] *)
Definition generate (names : list str) : M Proc unit :=
  (with_canvas (Canvas.init (output_path self) (A4 W))
     (for_each names generate_body ;;
      save W) ;;
   print (MsgGenerated (output_path self)) ;;
   print (MsgTotalPages (List.length names)))%py.

End Methods.

End NameplateGenerator.

Section Script.

Variable W : World.

(** [read_names_from_file(file_path)]: the loop appends the stripped
    lines that are not empty. *)
Fixpoint kept_names (lines : list str) (names : list str) : list str :=
  match lines with
  | [] => names
  | line :: rest =>
      let line := Py.strip line in
      if Py.truthy line
      then kept_names rest (names ++ [line])
      else kept_names rest names
  end.

Definition read_names_from_file (file_path : path) : M Proc (list str) :=
  match file_text W file_path with
  | None => raise (OSError file_path)
  | Some text => ret (kept_names (Py.lines text) [])
  end.

(** The parsed command line. *)
Record Args : Type := {
  names_file : path;
  logo : path;
  font : path;
  output : path
}.

(** ['nameplates.pdf'], the default of [--output]. *)
Definition default_output : path := Py.lit "nameplates.pdf".

(** [main()] from the validation of the input files on: [args] is the
    namespace [parser.parse_args()] has returned.  The parser is
    [argparse]'s; when it refuses the command line or is asked for help it
    ends the process itself, before any of the statements below, and such
    a run is not described here. *)
Definition main (args : Args) : M Proc Z :=
  (if negb (path_exists W (names_file args)) then
     print (ErrNamesNotFound (names_file args)) ;;
     ret 1%Z
   else if negb (path_exists W (logo args)) then
     print (ErrLogoNotFound (logo args)) ;;
     ret 1%Z
   else if negb (path_exists W (font args)) then
     print (ErrFontNotFound (font args)) ;;
     ret 1%Z
   else
     names <- read_names_from_file (names_file args) ;;
     if negb (match names with [] => false | _ :: _ => true end) then
       print ErrNoNames ;;
       ret 1%Z
     else
       print (MsgLoaded (List.length names) (names_file args)) ;;
       generator <- NameplateGenerator.__init__ W (logo args) (font args)
                                                (output args) ;;
       NameplateGenerator.generate W generator names ;;
       ret 0%Z)%py.

(** [exit(main())]: the exit status of the script.  An exception nobody
    catches ends the interpreter with status 1. *)
Definition exit_status (args : Args) (p : Proc) : Z :=
  match main args p with
  | Ok code _ => code
  | Raise _ _ => 1%Z
  end.

End Script.

(** The process before the script has done anything. *)
Definition fresh : Proc := {| stdout := []; written := [] |}.

(* ------------------------------------------------------------------ *)
(** * What a page shows *)

(** The content of a page is a sequence of calls; what ends up where on the
    paper depends on the graphics state each drawing call meets.  [render]
    replays a page and lists what is drawn, each item with the coordinate
    transforms in force for it. *)

Inductive xform : Type :=
| XTranslate (dx dy : Q)
| XRotate (theta : Z).

(** The transforms applied to the default frame of the page, oldest first;
    the empty list is the upright frame with its origin at the lower left
    corner of the page. *)
Definition frame := list xform.

Record gstate : Type := {
  g_frame : frame;
  g_font : option (font_name * Z)
}.

(** The graphics state and the stack of the states saved by [saveState]. *)
Definition gstack : Type := (gstate * list gstate)%type.

Definition page_start : gstack := ({| g_frame := []; g_font := None |}, []).

Definition gs_step (g : gstack) (o : op) : gstack :=
  let (cur, saved) := g in
  match o with
  | SaveState => (cur, cur :: saved)
  | RestoreState =>
      match saved with
      | top :: below => (top, below)
      | [] => (cur, [])
      end
  | SetFont f size => ({| g_frame := g_frame cur; g_font := Some (f, size) |}, saved)
  | Translate dx dy =>
      ({| g_frame := g_frame cur ++ [XTranslate dx dy]; g_font := g_font cur |}, saved)
  | Rotate theta =>
      ({| g_frame := g_frame cur ++ [XRotate theta]; g_font := g_font cur |}, saved)
  | DrawString _ _ _ => g
  | DrawImage _ _ _ _ _ => g
  end.

Definition gs_run (g : gstack) (ops : list op) : gstack :=
  fold_left gs_step ops g.

Inductive item : Type :=
| Image (fr : frame) (image : path) (x y width height : Q)
| Text (fr : frame) (f : option (font_name * Z)) (x y : Q) (text : str).

Definition drawn (g : gstack) (o : op) : list item :=
  match o with
  | DrawString x y text => [Text (g_frame (fst g)) (g_font (fst g)) x y text]
  | DrawImage image x y w h => [Image (g_frame (fst g)) image x y w h]
  | _ => []
  end.

Fixpoint render_from (g : gstack) (ops : list op) : list item :=
  match ops with
  | [] => []
  | o :: rest => drawn g o ++ render_from (gs_step g o) rest
  end.

Definition render (pg : page) : list item := render_from page_start pg.

(** Total rotation of a frame, in degrees. *)
Fixpoint rotation_of (fr : frame) : Z :=
  match fr with
  | [] => 0
  | XTranslate _ _ :: fr' => rotation_of fr'
  | XRotate theta :: fr' => ((theta + rotation_of fr') mod 360)%Z
  end.

(** A turn by a multiple of 90 degrees is exact; other angles are left
    uninterpreted. *)
Definition turn (theta : Z) (pt : Q * Q) : option (Q * Q) :=
  let (x, y) := pt in
  match (theta mod 360)%Z with
  | 0%Z => Some (x, y)
  | 90%Z => Some (- y, x)
  | 180%Z => Some (- x, - y)
  | 270%Z => Some (y, - x)
  | _ => None
  end.

Definition apply_xform (t : xform) (pt : Q * Q) : option (Q * Q) :=
  match t with
  | XTranslate dx dy => Some (dx + fst pt, dy + snd pt)
  | XRotate theta => turn theta pt
  end.

(** Where a point given in the coordinates of frame [fr] lies on the page:
    the transform applied last acts on the point first. *)
Fixpoint to_page (fr : frame) (pt : Q * Q) : option (Q * Q) :=
  match fr with
  | [] => Some pt
  | t :: fr' =>
      match to_page fr' pt with
      | Some q => apply_xform t q
      | None => None
      end
  end.

Definition texts_of (items : list item) : list str :=
  flat_map (fun i => match i with Text _ _ _ _ s => [s] | Image _ _ _ _ _ _ => [] end)
           items.

Definition is_image (i : item) : bool :=
  match i with Image _ _ _ _ _ _ => true | Text _ _ _ _ _ => false end.

(** The texts among the items are set in font [f]. *)
Definition text_font_is (f : font_name) (i : item) : Prop :=
  match i with
  | Text _ fo _ _ _ => exists size, fo = Some (f, size)
  | Image _ _ _ _ _ _ => True
  end.

Definition is_warning (m : message) : bool :=
  match m with
  | WarnFontNotFound _ | WarnLogoNotLoaded _ | WarnLogoNotFound _ => true
  | _ => false
  end.

(* ------------------------------------------------------------------ *)
(** * The calls a run of the generator makes *)

Import NameplateGenerator.

Definition mkDraw (fn : path) (ps : Q * Q) (code : page) (pages : document)
                  (pr : Proc) : Draw :=
  {| c := {| Canvas._filename := fn; Canvas._pagesize := ps;
             Canvas._code := code; Canvas._pages := pages |};
     proc := pr |}.

Definition prints (ms : list message) (p : Proc) : Proc :=
  {| stdout := stdout p ++ ms; written := written p |}.

Section Trace.

Variable W : World.
Variable self : self_.

(** The logo reaches the page when its file exists and loads. *)
Definition logo_drawable : bool :=
  path_exists W (logo_path self) && image_loadable W (logo_path self).

Definition logo_ops (x y width height : Q) : list op :=
  if logo_drawable then [DrawImage (logo_path self) x y width height] else [].

Definition logo_msgs : list message :=
  if path_exists W (logo_path self) then
    if image_loadable W (logo_path self) then []
    else [WarnLogoNotLoaded (ImageError (logo_path self))]
  else [WarnLogoNotFound (logo_path self)].

(** The width [_draw_name] measures for a name. *)
Definition text_width (name : str) : Q :=
  string_width W name (font_name_ self) (font_size self name).

Definition name_ops (name : str) (x y : Q) (rotation : Z) : list op :=
  [SaveState; SetFont (font_name_ self) (font_size self name)]
  ++ (if (rotation =? 180)%Z
      then [Translate x y; Rotate rotation;
            DrawString (- text_width name / 2) 0 name]
      else [DrawString (x - text_width name / 2) y name])
  ++ [RestoreState].

(** The calls of one pass through the loop of [generate], [showPage]
    excluded. *)
Definition page_ops (name : str) : page :=
  logo_ops (logo_margin W) (fold_line self + logo_margin W)
           (logo_size self) (logo_size self)
  ++ name_ops name (page_width self / 2) (name_y self) 0
  ++ logo_ops (logo_x W self) (logo_y W self) (logo_size self) (logo_size self)
  ++ name_ops name (page_width self / 2) (name_y_bottom self) 180.

(** The messages of the loop of [generate]. *)
Definition body_msgs (names : list str) : list message :=
  flat_map (fun _ => logo_msgs ++ logo_msgs) names.

(** What [render] lists for a logo drawn at [(x, y)]. *)
Definition logo_items (x y : Q) : list item :=
  if logo_drawable
  then [Image [] (logo_path self) x y (logo_size self) (logo_size self)]
  else [].

End Trace.

(* ------------------------------------------------------------------ *)
(** * A concrete world *)

Module Example.

(** One millimetre in points: 72 / 25.4. *)
Definition mm_pt : Q := 360 # 127.

Definition names_txt : path := Py.lit "names.txt".
Definition blank_txt : path := Py.lit "blank.txt".
Definition logo_png : path := Py.lit "logo.png".
Definition font_ttf : path := Py.lit "font.ttf".
Definition out_pdf : path := Py.lit "out.pdf".
Definition missing : path := Py.lit "missing".

Definition alice : str := Py.lit "Alice Smith".
Definition bob : str := Py.lit "Bob".

(** "Alice Smith", an empty line, "  Bob " and a line of blanks. *)
Definition names_text : str :=
  alice ++ [Py.LF; Py.LF; 32; 32]%N ++ bob ++ [32; Py.CR; Py.LF; 9; 32; Py.LF]%N.

Definition blank_text : str := [32; Py.LF; Py.LF; 9; 160; Py.LF]%N.

(** An output path in a directory that does not exist. *)
Definition nodir_pdf : path := Py.lit "nodir/out.pdf".

Definition W : World :=
  {| mm := mm_pt;
     A4 := (210 * mm_pt, 297 * mm_pt);
     path_exists := fun f =>
       existsb (Py.eqb f) [names_txt; blank_txt; logo_png; font_ttf];
     file_text := fun f =>
       if Py.eqb f names_txt then Some names_text
       else if Py.eqb f blank_txt then Some blank_text
       else None;
     ttf_loadable := fun f => Py.eqb f font_ttf;
     image_loadable := fun f => Py.eqb f logo_png;
     string_width := fun s _ size =>
       inject_Z (Z.of_nat (Py.len s) * size) * (6 # 10);
     creatable := fun f => negb (Py.eqb f nodir_pdf) |}.

(** The same world without the logo and the font files. *)
Definition W_bare : World :=
  {| mm := mm_pt;
     A4 := (210 * mm_pt, 297 * mm_pt);
     path_exists := fun f => Py.eqb f names_txt;
     file_text := file_text W;
     ttf_loadable := fun _ => false;
     image_loadable := fun _ => false;
     string_width := string_width W;
     creatable := creatable W |}.

Definition build (w : World) : self_ :=
  match __init__ w logo_png font_ttf out_pdf
                 {| stdout := []; written := [] |} with
  | Ok g _ => g
  | Raise _ _ =>
      {| logo_path := []; font_path := []; output_path := [];
         page_width := 0; page_height := 0; fold_line := 0; logo_size := 0;
         font_size_large := 0; font_size_medium := 0;
         font_name_ := Helvetica |}
  end.

Definition g : self_ := build W.
Definition g_bare : self_ := build W_bare.

(** The generator of [W] for another output path. *)
Definition build_at (output_path : path) : self_ :=
  match __init__ W logo_png font_ttf output_path
                 {| stdout := []; written := [] |} with
  | Ok g _ => g
  | Raise _ _ => g
  end.

Definition args (names_file logo font : path) : Args :=
  {| names_file := names_file; logo := logo; font := font;
     output := out_pdf |}.

Definition x30 : str := repeat 120%N 30.
Definition x31 : str := repeat 120%N 31.

End Example.

(* ------------------------------------------------------------------ *)
(** * Notions used to describe runs and pages *)


(** The warnings of the two fall-backs for a file that does not exist. *)
Definition not_found_warning (m : message) : bool :=
  match m with
  | WarnFontNotFound _ | WarnLogoNotFound _ => true
  | _ => false
  end.

(** A line break character. *)
Definition is_break (ch : char) : bool := ((ch =? Py.LF) || (ch =? Py.CR))%N.

(** A string without a line break. *)
Definition one_line (s : str) : bool :=
  forallb (fun ch => negb (is_break ch)) s.

(** A line of a text file: characters other than line breaks, with or
    without the line end. *)
Definition line_shape (l : str) : Prop :=
  exists body, one_line body = true /\ (l = body \/ l = body ++ [Py.LF]).

(** The text of a file that holds the given names, one per line. *)
Definition unlines (names : list str) : str :=
  flat_map (fun name => name ++ [Py.LF]) names.

(** [__init__] returns: the font file is absent or it loads. *)
Definition font_usable (W : World) (font_path : path) : bool :=
  negb (path_exists W font_path) || ttf_loadable W font_path.

(* ------------------------------------------------------------------ *)
(** * [example_usage.py] *)

Module ExampleUsage.

(** The lines of the standard output of the script: those the functions of
    [generate_nameplates] print and the two of the script itself. *)
Inductive line : Type :=
| FromModule (m : message)
| SaidGenerated            (* "Generated nameplates successfully!" *)
| SaidGeneratedFromFile.   (* "Generated nameplates from file successfully!" *)

(** The process running the script. *)
Record Script : Type := {
  console : list line;
  files : list (path * document)
}.

(** A call into [generate_nameplates].  The functions of the module only
    add lines to the standard output, so the call is run on an empty one
    and its lines are added to the console of the script. *)
Definition call {A} (m : M Proc A) : M Script A :=
  fun u =>
    match m {| stdout := []; written := files u |} with
    | Ok a p =>
        Ok a {| console := console u ++ List.map FromModule (stdout p);
                files := written p |}
    | Raise e p =>
        Raise e {| console := console u ++ List.map FromModule (stdout p);
                   files := written p |}
    end.

Definition say (l : line) : M Script unit :=
  modify (fun u => {| console := console u ++ [l]; files := files u |}).

Definition sample_logo : path := Py.lit "examples/sample_logo.png".
Definition sample_font : path := Py.lit "examples/sample_font.ttf".
Definition sample_names : path := Py.lit "examples/sample_names.txt".
Definition my_nameplates : path := Py.lit "my_nameplates.pdf".

(** The default of the parameter [output_path] of [__init__]. *)
Definition output_path_default : path := Py.lit "nameplates.pdf".

(** The three names of the first example. *)
Definition ivanov : str :=
  [1048; 1074; 1072; 1085; 1086; 1074; 32; 1048; 1074; 1072; 1085; 32;
   1048; 1074; 1072; 1085; 1086; 1074; 1080; 1095]%N.
Definition petrova : str :=
  [1055; 1077; 1090; 1088; 1086; 1074; 1072; 32; 1052; 1072; 1088; 1080;
   1103; 32; 1057; 1077; 1088; 1075; 1077; 1077; 1074; 1085; 1072]%N.
Definition smirnov : str :=
  [1057; 1084; 1080; 1088; 1085; 1086; 1074; 32; 1044; 1084; 1080; 1090;
   1088; 1080; 1081; 32; 1040; 1083; 1077; 1082; 1089; 1072; 1085; 1076;
   1088; 1086; 1074; 1080; 1095]%N.

Definition example_names : list str := [ivanov; petrova; smirnov].

(** The script, from top to bottom. *)
Definition script (W : World) : M Script unit :=
  (let names := example_names in
   generator <- call (__init__ W sample_logo sample_font my_nameplates) ;;
   call (generate W generator names) ;;
   say SaidGenerated ;;
   names <- call (read_names_from_file W sample_names) ;;
   generator <- call (__init__ W sample_logo sample_font
                               output_path_default) ;;
   call (generate W generator names) ;;
   say SaidGeneratedFromFile)%py.

Definition fresh_script : Script := {| console := []; files := [] |}.

(** A world in which the sample files are in place. *)
Definition W_samples : World :=
  {| mm := Example.mm_pt;
     A4 := (210 * Example.mm_pt, 297 * Example.mm_pt)%Q;
     path_exists := fun f =>
       existsb (Py.eqb f) [sample_logo; sample_font; sample_names];
     file_text := fun f =>
       if Py.eqb f sample_names then Some Example.names_text else None;
     ttf_loadable := fun f => Py.eqb f sample_font;
     image_loadable := fun f => Py.eqb f sample_logo;
     string_width := string_width Example.W;
     creatable := creatable Example.W |}.

(** The same world without the names file. *)
Definition W_no_names : World :=
  {| mm := Example.mm_pt;
     A4 := (210 * Example.mm_pt, 297 * Example.mm_pt)%Q;
     path_exists := fun f => existsb (Py.eqb f) [sample_logo; sample_font];
     file_text := fun _ => None;
     ttf_loadable := fun f => Py.eqb f sample_font;
     image_loadable := fun f => Py.eqb f sample_logo;
     string_width := string_width Example.W;
     creatable := creatable Example.W |}.

End ExampleUsage.

(** A world whose only file holds the two names of [Example.names_text],
    one per line. *)
Definition W_rewritten : World :=
  {| mm := Example.mm_pt;
     A4 := (210 * Example.mm_pt, 297 * Example.mm_pt)%Q;
     path_exists := fun f => Py.eqb f Example.names_txt;
     file_text := fun f =>
       if Py.eqb f Example.names_txt
       then Some (unlines [Example.alice; Example.bob]) else None;
     ttf_loadable := fun _ => false;
     image_loadable := fun _ => false;
     string_width := string_width Example.W;
     creatable := creatable Example.W |}.

(* ------------------------------------------------------------------ *)
(** * The vertical layout in double precision *)

(** The interpreter computes the coordinates in binary64.  The module
    evaluates the expressions of the vertical layout as it does. *)

Module Double.

Import PrimFloat.
Local Open Scope float_scope.
Local Set Warnings "-inexact-float".

(** The constants of [reportlab.lib.units] and [reportlab.lib.pagesizes]:
    a point is 1/72 inch, an inch is 2.54 cm. *)
Definition inch : float := 72.0.
Definition cm : float := inch / 2.54.
Definition mm : float := cm * 0.1.
Definition A4 : float * float := (210 * mm, 297 * mm).

(** The page geometry of a generator. *)
Record geometry : Type := {
  page_width : float;
  page_height : float;
  fold_line : float
}.


(** [name_y = self.fold_line + (self.page_height - self.fold_line) / 2] *)
Definition name_y (g : geometry) : float :=
  fold_line g + (page_height g - fold_line g) / 2.

(** [name_y_bottom = self.fold_line / 2] *)
Definition name_y_bottom (g : geometry) : float := fold_line g / 2.




End Double.

(* ------------------------------------------------------------------ *)
(** * Symbolic execution of the methods *)

Section Runs.

Variable W : World.
Variable self : self_.

Lemma draw_logo_run (x y w h : Q) fn ps code pages pr :
  _draw_logo W self x y w h (mkDraw fn ps code pages pr)
  = Ok tt (mkDraw fn ps (code ++ logo_ops W self x y w h) pages
                  (prints (logo_msgs W self) pr)).
Proof.
  unfold _draw_logo, logo_ops, logo_msgs, logo_drawable, drawImage, try_except.
  destruct pr as [out wr].
  destruct (path_exists W (logo_path self)); cbn.
  - destruct (image_loadable W (logo_path self)); cbn;
      unfold mkDraw, prints; cbn; rewrite ?app_nil_r; reflexivity.
  - unfold mkDraw, prints; cbn; rewrite ?app_nil_r; reflexivity.
Qed.

(** [_draw_logo] has no exit by exception. *)
Lemma draw_logo_returns (x y w h : Q) (d : Draw) :
  returned (_draw_logo W self x y w h d) = true.
Proof.
  destruct d as [[fn ps code pages] pr].
  change (returned (_draw_logo W self x y w h (mkDraw fn ps code pages pr)) = true).
  rewrite draw_logo_run. reflexivity.
Qed.

Lemma draw_name_run (name : str) (x y : Q) (rotation : Z) fn ps code pages pr :
  _draw_name W self name x y rotation (mkDraw fn ps code pages pr)
  = Ok tt (mkDraw fn ps (code ++ name_ops W self name x y rotation) pages pr).
Proof.
  unfold _draw_name, name_ops, text_width, bind, saveState, setFont,
    stringWidth, translate, rotate, drawString, restoreState, on_canvas,
    modify, ret, mkDraw.
  cbn. destruct (rotation =? 180)%Z; cbn;
    unfold Canvas.emit; cbn; repeat rewrite <- app_assoc; reflexivity.
Qed.

(** [_draw_name] has no exit by exception. *)
Lemma draw_name_returns (name : str) (x y : Q) (rotation : Z) (d : Draw) :
  returned (_draw_name W self name x y rotation d) = true.
Proof.
  destruct d as [[fn ps code pages] pr].
  change (returned (_draw_name W self name x y rotation
                               (mkDraw fn ps code pages pr)) = true).
  rewrite draw_name_run. reflexivity.
Qed.

Lemma generate_body_run (name : str) fn ps code pages pr :
  generate_body W self name (mkDraw fn ps code pages pr)
  = Ok tt (mkDraw fn ps [] (pages ++ [code ++ page_ops W self name])
                  (prints (logo_msgs W self ++ logo_msgs W self) pr)).
Proof.
  unfold generate_body, bind at 1.
  rewrite draw_logo_run. unfold bind at 1.
  rewrite draw_name_run. unfold bind at 1.
  rewrite draw_logo_run. unfold bind at 1.
  rewrite draw_name_run.
  unfold showPage, on_canvas, modify, mkDraw, page_ops, prints. cbn.
  repeat rewrite <- app_assoc. reflexivity.
Qed.

(** The loop of [generate] closes one page per name and leaves no page in
    progress. *)
Lemma for_each_run (names : list str) : forall fn ps pages pr,
  for_each names (generate_body W self) (mkDraw fn ps [] pages pr)
  = Ok tt (mkDraw fn ps [] (pages ++ List.map (page_ops W self) names)
                  (prints (body_msgs W self names) pr)).
Proof.
  induction names as [|name names IH]; intros fn ps pages pr.
  - destruct pr as [out wr]. cbn. unfold ret, mkDraw, prints. cbn.
    rewrite !app_nil_r. reflexivity.
  - cbn [for_each]. unfold bind at 1.
    rewrite generate_body_run.
    rewrite IH. cbn [app List.map].
    rewrite <- app_assoc. cbn [app].
    destruct pr as [out wr]. unfold body_msgs, prints, mkDraw. cbn.
    rewrite <- !app_assoc. reflexivity.
Qed.

(** The run of [generate] when the output file can be created. *)
Lemma generate_run (names : list str) (p : Proc) :
  creatable W (output_path self) = true ->
  generate W self names p
  = Ok tt {| stdout := stdout p ++ body_msgs W self names
                       ++ [MsgGenerated (output_path self);
                           MsgTotalPages (List.length names)];
             written := written p
                        ++ [(output_path self,
                             List.map (page_ops W self) names)] |}.
Proof.
  intros Hc. unfold generate, bind at 1, with_canvas, bind at 1.
  change {| c := Canvas.init (output_path self) (A4 W); proc := p |}
    with (mkDraw (output_path self) (A4 W) [] [] p).
  rewrite for_each_run.
  unfold save, bind, on_canvas, modify, mkDraw. cbn. rewrite Hc.
  destruct p as [out wr]. cbn.
  unfold print, modify, put_line, Console_Proc, print_proc, write_file,
    prints. cbn.
  rewrite <- !app_assoc. reflexivity.
Qed.

(** The run of [generate] when the output file cannot be created: [save]
    raises after the loop, nothing is written and the two last lines are
    not printed. *)
Lemma generate_unwritable (names : list str) (p : Proc) :
  creatable W (output_path self) = false ->
  generate W self names p
  = Raise (OSError (output_path self))
          {| stdout := stdout p ++ body_msgs W self names;
             written := written p |}.
Proof.
  intros Hc. unfold generate, bind at 1, with_canvas, bind at 1.
  change {| c := Canvas.init (output_path self) (A4 W); proc := p |}
    with (mkDraw (output_path self) (A4 W) [] [] p).
  rewrite for_each_run.
  unfold save, bind, on_canvas, modify, mkDraw. cbn. rewrite Hc.
  destruct p as [out wr]. reflexivity.
Qed.

End Runs.

(* ------------------------------------------------------------------ *)
(** * Facts about rendering *)

Lemma gs_run_app (g : gstack) (a b : list op) :
  gs_run g (a ++ b) = gs_run (gs_run g a) b.
Proof. unfold gs_run. apply fold_left_app. Qed.


Section Rendering.

Variable W : World.
Variable self : self_.

(** [_draw_name] hands the graphics state back as it found it. *)
Lemma name_ops_restore (name : str) (x y : Q) (rotation : Z) (g : gstack) :
  gs_run g (name_ops W self name x y rotation) = g.
Proof.
  destruct g as [cur saved]. unfold name_ops.
  destruct (rotation =? 180)%Z; destruct cur; reflexivity.
Qed.

Lemma logo_ops_gs (x y w h : Q) (g : gstack) :
  gs_run g (logo_ops W self x y w h) = g.
Proof.
  unfold logo_ops. destruct (logo_drawable W self); destruct g; reflexivity.
Qed.

Lemma page_ops_gs (name : str) (g : gstack) :
  gs_run g (page_ops W self name) = g.
Proof.
  unfold page_ops.
  rewrite !gs_run_app.
  repeat (rewrite logo_ops_gs || rewrite name_ops_restore).
  reflexivity.
Qed.

(** What a generated page shows: the upper logo, the upright name, the
    lower logo and the name in the turned frame, in this order. *)
Lemma render_page_ops (name : str) :
  render (page_ops W self name)
  = logo_items W self (logo_margin W) (fold_line self + logo_margin W)
    ++ [Text [] (Some (font_name_ self, font_size self name))
             (page_width self / 2 - text_width W self name / 2)
             (name_y self) name]
    ++ logo_items W self (logo_x W self) (logo_y W self)
    ++ [Text [XTranslate (page_width self / 2) (name_y_bottom self);
              XRotate 180]
             (Some (font_name_ self, font_size self name))
             (- text_width W self name / 2) 0 name].
Proof.
  unfold render, page_ops, logo_items, logo_ops.
  destruct (logo_drawable W self); reflexivity.
Qed.

End Rendering.

(** Linear arithmetic over [Q] with the halves the layout takes. *)
Ltac halves := unfold Qdiv; change (/ 2)%Q with (1 # 2)%Q; lra.

Lemma Forall2_map_right {A B} (P : A -> B -> Prop) (f : A -> B) (l : list A) :
  (forall a, P a (f a)) -> Forall2 P l (List.map f l).
Proof. intros H. induction l; cbn; constructor; auto. Qed.

Lemma Forall_map_all {A B} (P : B -> Prop) (f : A -> B) (l : list A) :
  (forall a, P (f a)) -> Forall P (List.map f l).
Proof. intros H. induction l; cbn; constructor; auto. Qed.

(** A half turn about a point maps every point to its mirror image through
    that point. *)
Lemma half_turn_about (cx cy x y : Q) :
  to_page [XTranslate cx cy; XRotate 180] (x, y) = Some (cx + - x, cy + - y).
Proof. reflexivity. Qed.

(* ------------------------------------------------------------------ *)
(** * The layout of a page *)

Local Open Scope Q_scope.

(** C1.  For every name, the upper half of its page is laid out as follows:
    the logo, when it can be drawn, is anchored at
    [(margin, fold_line + margin)] with [margin = 10 mm] and has size
    [logo_size x logo_size]; the name is drawn in the upright frame of the
    page (no rotation), its origin at [centerX - textWidth / 2] with
    [centerX = page_width / 2], so that the run of width [textWidth] is
    centred on [centerX], and at height
    [fold_line + (page_height - fold_line) / 2]. *)
Theorem top_region_placement (W : World) (self : self_) (names : list str)
                             (p : Proc) :
  creatable W (output_path self) = true ->
  exists doc out,
    generate W self names p
    = Ok tt {| stdout := out;
               written := written p ++ [(output_path self, doc)] |}
    /\ Forall2
         (fun name pg =>
            let margin := 10 * mm W in
            let centerX := page_width self / 2 in
            let textWidth :=
              string_width W name (font_name_ self) (font_size self name) in
            let upright : frame := [] in
            exists rest,
              render pg
              = (if logo_drawable W self
                 then [Image upright (logo_path self) margin
                             (fold_line self + margin)
                             (logo_size self) (logo_size self)]
                 else [])
                ++ Text upright (Some (font_name_ self, font_size self name))
                        (centerX - textWidth / 2)
                        (fold_line self + (page_height self - fold_line self) / 2)
                        name
                   :: rest
              /\ rotation_of upright = 0%Z
              /\ (centerX - textWidth / 2) + textWidth / 2 == centerX)
         names doc.
Proof.
  intros Hd.
  exists (List.map (page_ops W self) names). eexists.
  split; [apply generate_run; exact Hd|].
  apply Forall2_map_right. intros name. cbv zeta.
  rewrite render_page_ops.
  eexists. split; [|split; [reflexivity|ring]].
  unfold logo_items. reflexivity.
Qed.

Lemma top_region_placement_witness :
  creatable Example.W (output_path Example.g) = true
  /\ exists doc out,
       generate Example.W Example.g [Example.alice; Example.bob] fresh
       = Ok tt {| stdout := out; written := [(Example.out_pdf, doc)] |}
       /\ List.length doc = 2%nat.
Proof.
  split; [reflexivity|].
  destruct (@top_region_placement Example.W Example.g
              [Example.alice; Example.bob] fresh eq_refl)
    as (doc & out & Hrun & Hpages).
  exists doc, out. split; [exact Hrun|].
  symmetry. exact (Forall2_length Hpages).
Defined.

(** C2.  For every name, the lower half of its page is laid out as follows:
    the logo, when it can be drawn, is anchored at
    [(page_width - margin - logo_size, fold_line - margin - logo_size)] and
    has size [logo_size x logo_size]; the name is drawn in the frame
    obtained by moving the origin to [(page_width / 2, fold_line / 2)] and
    turning by 180 degrees, which is the half turn about that point, and its
    origin in that frame is [(- textWidth / 2, 0)]. *)
Theorem bottom_region_placement (W : World) (self : self_) (names : list str)
                                (p : Proc) :
  creatable W (output_path self) = true ->
  exists doc out,
    generate W self names p
    = Ok tt {| stdout := out;
               written := written p ++ [(output_path self, doc)] |}
    /\ Forall2
         (fun name pg =>
            let margin := 10 * mm W in
            let textWidth :=
              string_width W name (font_name_ self) (font_size self name) in
            let turned :=
              [XTranslate (page_width self / 2) (fold_line self / 2);
               XRotate 180] in
            exists upper,
              render pg
              = upper
                ++ (if logo_drawable W self
                    then [Image [] (logo_path self)
                                (page_width self - margin - logo_size self)
                                (fold_line self - margin - logo_size self)
                                (logo_size self) (logo_size self)]
                    else [])
                ++ [Text turned (Some (font_name_ self, font_size self name))
                         (- textWidth / 2) 0 name]
              /\ rotation_of turned = 180%Z
              /\ forall x y,
                   to_page turned (x, y)
                   = Some (page_width self / 2 + - x, fold_line self / 2 + - y))
         names doc.
Proof.
  intros Hd.
  exists (List.map (page_ops W self) names). eexists.
  split; [apply generate_run; exact Hd|].
  apply Forall2_map_right. intros name. cbv zeta.
  rewrite render_page_ops.
  exists (logo_items W self (logo_margin W) (fold_line self + logo_margin W)
          ++ [Text [] (Some (font_name_ self, font_size self name))
                   (page_width self / 2 - text_width W self name / 2)
                   (name_y self) name]).
  split; [|split; [reflexivity|intros x y; apply half_turn_about]].
  rewrite <- !app_assoc. reflexivity.
Qed.

Lemma bottom_region_placement_witness :
  creatable Example.W (output_path Example.g) = true
  /\ exists doc out,
       generate Example.W Example.g [Example.alice; Example.bob] fresh
       = Ok tt {| stdout := out; written := [(Example.out_pdf, doc)] |}
       /\ List.length doc = List.length [Example.alice; Example.bob].
Proof.
  split; [reflexivity|].
  destruct (@bottom_region_placement Example.W Example.g
              [Example.alice; Example.bob] fresh eq_refl)
    as (doc & out & Hrun & Hpages).
  exists doc, out. split; [exact Hrun|].
  symmetry. exact (Forall2_length Hpages).
Defined.

(** C3.  The font size of a name is the medium one when the name has more
    than 30 characters and the large one otherwise, a name of exactly 30
    characters included; [__init__] sets the two sizes to 36 and 48.  The
    choice is a total function of the name, and it is the size [_draw_name]
    sets on the canvas in every run. *)
Theorem font_size_tiers (W : World) (logo_path font_path output_path : path)
                        (p p' : Proc) (self : self_) (name : str) :
  __init__ W logo_path font_path output_path p = Ok self p' ->
  ((Py.len name <= 30)%nat -> font_size self name = font_size_large self)
  /\ ((30 < Py.len name)%nat -> font_size self name = font_size_medium self)
  /\ (Py.len name = 30%nat -> font_size self name = font_size_large self)
  /\ font_size_large self = 48%Z
  /\ font_size_medium self = 36%Z
  /\ forall x y rotation d, exists tail,
       Canvas._code (c (state_of (_draw_name W self name x y rotation d)))
       = Canvas._code (c d)
         ++ SaveState :: SetFont (font_name_ self) (font_size self name) :: tail.
Proof.
  intros Hinit. unfold font_size.
  repeat split.
  - intros Hle. apply Nat.ltb_ge in Hle. rewrite Hle. reflexivity.
  - intros Hlt. apply Nat.ltb_lt in Hlt. rewrite Hlt. reflexivity.
  - intros Heq. rewrite Heq. reflexivity.
  - unfold __init__, bind, ret, raise, print, modify in Hinit.
    destruct (path_exists W font_path); [destruct (ttf_loadable W font_path)|];
      inversion Hinit; reflexivity.
  - unfold __init__, bind, ret, raise, print, modify in Hinit.
    destruct (path_exists W font_path); [destruct (ttf_loadable W font_path)|];
      inversion Hinit; reflexivity.
  - intros x y rotation [[fn ps code pages] pr].
    change {| c := {| Canvas._filename := fn; Canvas._pagesize := ps;
                      Canvas._code := code; Canvas._pages := pages |};
              proc := pr |}
      with (mkDraw fn ps code pages pr).
    rewrite draw_name_run. cbn. unfold name_ops, font_size.
    eexists. reflexivity.
Qed.

Lemma font_size_tiers_witness :
  font_size Example.g Example.x30 = 48%Z
  /\ font_size Example.g Example.x31 = 36%Z
  /\ font_size Example.g Example.bob = 48%Z.
Proof.
  assert (Hinit : __init__ Example.W Example.logo_png Example.font_ttf
                           Example.out_pdf fresh = Ok Example.g fresh)
    by reflexivity.
  pose proof (@font_size_tiers _ _ _ _ _ _ _ Example.x30 Hinit) as (_ & _ & H30 & L30 & _).
  pose proof (@font_size_tiers _ _ _ _ _ _ _ Example.x31 Hinit) as (_ & H31 & _ & _ & M31 & _).
  pose proof (@font_size_tiers _ _ _ _ _ _ _ Example.bob Hinit) as (Hbob & _ & _ & Lbob & _).
  split; [|split].
  - rewrite H30 by reflexivity. exact L30.
  - rewrite H31 by (vm_compute; lia). exact M31.
  - rewrite Hbob by (vm_compute; lia). exact Lbob.
Defined.

(** In exact arithmetic the two names lie on their sides of the fold line
    for every geometry: when [0 < fold_line < page_height], the upright
    name of every page is drawn strictly above the fold line, and the
    origin of the turned name lies, in page coordinates, strictly below
    it. *)
Lemma text_sides_of_fold_exact (W : World) (self : self_) (names : list str)
                               (p : Proc) :
  0 < fold_line self ->
  fold_line self < page_height self ->
  creatable W (output_path self) = true ->
  exists doc out,
    generate W self names p
    = Ok tt {| stdout := out;
               written := written p ++ [(output_path self, doc)] |}
    /\ Forall2
         (fun name pg =>
            exists upper_logo lower_logo f x1 y1 turned x2 y2 px py,
              render pg
              = upper_logo ++ [Text [] f x1 y1 name]
                ++ lower_logo ++ [Text turned f x2 y2 name]
              /\ forallb is_image (upper_logo ++ lower_logo) = true
              /\ fold_line self < y1
              /\ to_page turned (x2, y2) = Some (px, py)
              /\ py < fold_line self)
         names doc.
Proof.
  intros Hpos Hlt Hd.
  exists (List.map (page_ops W self) names). eexists.
  split; [apply generate_run; exact Hd|].
  apply Forall2_map_right. intros name.
  rewrite render_page_ops.
  do 10 eexists.
  split; [reflexivity|].
  split; [unfold logo_items; destruct (logo_drawable W self); reflexivity|].
  split; [unfold name_y; halves|].
  split; [apply half_turn_about|].
  unfold name_y_bottom. halves.
Qed.



(* ------------------------------------------------------------------ *)
(** * Pages *)

(** C5, as the code has it.  When the output file can be created,
    [generate(names)] writes a document with exactly one page per name, in
    the order of the names: page [i] shows the name [i], twice, and nothing
    of any other name, duplicates included.  Every pass of the loop, the
    last one included, ends with the [showPage] that closes the page of
    its name: after the loop the canvas holds [len(names)] finished pages
    and no page in progress, and [save] writes these pages without adding
    one. *)
Theorem one_page_per_name (W : World) (self : self_) (names : list str)
                          (p : Proc) :
  names <> [] ->
  creatable W (output_path self) = true ->
  exists doc d out,
    for_each names (generate_body W self)
             {| c := Canvas.init (output_path self) (A4 W); proc := p |}
    = Ok tt d
    /\ Canvas._code (c d) = []
    /\ Canvas._pages (c d) = doc
    /\ Canvas.flush (c d) = c d
    /\ generate W self names p
       = Ok tt {| stdout := out;
                  written := written p ++ [(output_path self, doc)] |}
    /\ List.length doc = List.length names
    /\ Forall2 (fun name pg => texts_of (render pg) = [name; name]) names doc.
Proof.
  intros _ Hd.
  exists (List.map (page_ops W self) names). eexists. eexists.
  split.
  { change {| c := Canvas.init (output_path self) (A4 W); proc := p |}
      with (mkDraw (output_path self) (A4 W) [] [] p).
    apply for_each_run. }
  split; [reflexivity|]. split; [reflexivity|]. split; [reflexivity|].
  split; [apply generate_run; exact Hd|].
  split; [apply length_map|].
  apply Forall2_map_right. intros name.
  rewrite render_page_ops. unfold logo_items.
  destruct (logo_drawable W self); reflexivity.
Qed.

Lemma one_page_per_name_witness :
  [Example.bob; Example.alice; Example.bob] <> []
  /\ creatable Example.W (output_path Example.g) = true
  /\ exists doc out,
       generate Example.W Example.g [Example.bob; Example.alice; Example.bob]
                fresh
       = Ok tt {| stdout := out; written := [(Example.out_pdf, doc)] |}
       /\ List.length doc = 3%nat
       /\ List.map (fun pg => texts_of (render pg)) doc
          = [[Example.bob; Example.bob]; [Example.alice; Example.alice];
             [Example.bob; Example.bob]].
Proof.
  assert (Hne : [Example.bob; Example.alice; Example.bob] <> [])
    by discriminate.
  split; [exact Hne|]. split; [reflexivity|].
  destruct (@one_page_per_name Example.W Example.g _ fresh Hne eq_refl)
    as (doc & d & out & _ & _ & _ & _ & Hrun & Hlen & Hpages).
  exists doc, out. split; [exact Hrun|]. split; [exact Hlen|].
  inversion Hpages as [|n1 pg1 ns1 doc1 H1 Hrest1]; subst.
  inversion Hrest1 as [|n2 pg2 ns2 doc2 H2 Hrest2]; subst.
  inversion Hrest2 as [|n3 pg3 ns3 doc3 H3 Hrest3]; subst.
  inversion Hrest3; subst.
  cbn [List.map]. rewrite H1, H2, H3. reflexivity.
Defined.

(** C5 as stated fails in its last clause: a page boundary is emitted
    after the last name too.  When the loop has run over a single name,
    before [save] is reached, the page of that name is already closed and
    no page is in progress. *)
Lemma page_boundary_after_last_name :
  exists d pg,
    for_each [Example.bob] (generate_body Example.W Example.g)
             {| c := Canvas.init Example.out_pdf (A4 Example.W);
                proc := fresh |}
    = Ok tt d
    /\ Canvas._pages (c d) = [pg]
    /\ Canvas._code (c d) = []
    /\ texts_of (render pg) = [Example.bob; Example.bob].
Proof.
  eexists. eexists. split; [reflexivity|]. repeat split.
Qed.

(* ------------------------------------------------------------------ *)
(** * Stripping *)

Local Close Scope Q_scope.

Lemma lstrip_head (s : str) (ch : char) (rest : str) :
  Py.lstrip s = ch :: rest -> Py.isspace ch = false.
Proof.
  induction s as [|a s IH]; cbn; intros H.
  - discriminate H.
  - destruct (Py.isspace a) eqn:Ha.
    + exact (IH H).
    + inversion H; subst. exact Ha.
Qed.

Lemma lstrip_blank (s : str) : blank s = true -> Py.lstrip s = [].
Proof.
  induction s as [|a s IH]; cbn; intros H.
  - reflexivity.
  - apply andb_true_iff in H as [Ha Hs]. rewrite Ha. exact (IH Hs).
Qed.

(** [lstrip] removes a blank prefix and nothing else. *)
Lemma lstrip_split (s : str) :
  exists ws, s = ws ++ Py.lstrip s /\ blank ws = true.
Proof.
  induction s as [|a s (ws & Hs & Hb)]; cbn.
  - exists []. split; reflexivity.
  - destruct (Py.isspace a) eqn:Ha.
    + exists (a :: ws). unfold blank in *. cbn. rewrite Ha, Hb.
      split; [f_equal; exact Hs|reflexivity].
    + exists []. split; reflexivity.
Qed.

Lemma blank_rev (s : str) : blank (rev s) = blank s.
Proof.
  unfold blank. induction s as [|a s IH]; cbn.
  - reflexivity.
  - rewrite forallb_app, IH. cbn. rewrite andb_true_r. apply andb_comm.
Qed.

(** [rstrip] removes a blank suffix and nothing else. *)
Lemma rstrip_split (s : str) :
  exists ws, s = Py.rstrip s ++ ws /\ blank ws = true.
Proof.
  unfold Py.rstrip.
  destruct (lstrip_split (rev s)) as (ws & Hs & Hb).
  exists (rev ws). split.
  - rewrite <- rev_app_distr, <- Hs, rev_involutive. reflexivity.
  - rewrite blank_rev. exact Hb.
Qed.

Lemma rstrip_last (s : str) (ch : char) (front : str) :
  Py.rstrip s = front ++ [ch] -> Py.isspace ch = false.
Proof.
  unfold Py.rstrip. intros H.
  apply (f_equal (@rev char)) in H.
  rewrite rev_involutive, rev_app_distr in H. cbn in H.
  exact (lstrip_head _ H).
Qed.

Lemma strip_split (s : str) :
  exists before after,
    s = before ++ Py.strip s ++ after
    /\ blank before = true /\ blank after = true.
Proof.
  unfold Py.strip.
  destruct (lstrip_split s) as (before & Hs & Hb).
  destruct (rstrip_split (Py.lstrip s)) as (after & Ht & Ha).
  exists before, after. split; [|split; assumption].
  rewrite <- Ht. exact Hs.
Qed.

Lemma strip_head (s : str) (ch : char) (rest : str) :
  Py.strip s = ch :: rest -> Py.isspace ch = false.
Proof.
  unfold Py.strip. intros H.
  destruct (rstrip_split (Py.lstrip s)) as (after & Ht & _).
  rewrite H in Ht. cbn in Ht. exact (lstrip_head _ Ht).
Qed.

Lemma strip_last (s : str) (ch : char) (front : str) :
  Py.strip s = front ++ [ch] -> Py.isspace ch = false.
Proof. unfold Py.strip. apply rstrip_last. Qed.

Lemma strip_blank (s : str) : blank s = true -> Py.strip s = [].
Proof.
  intros H. unfold Py.strip. rewrite (lstrip_blank _ H). reflexivity.
Qed.

Lemma kept_names_acc (lines names : list str) :
  kept_names lines names
  = names ++ filter Py.truthy (List.map Py.strip lines).
Proof.
  revert names. induction lines as [|line lines IH]; intros names; cbn.
  - rewrite app_nil_r. reflexivity.
  - destruct (Py.truthy (Py.strip line)); rewrite IH.
    + rewrite <- app_assoc. reflexivity.
    + reflexivity.
Qed.

Lemma kept_names_filter (lines : list str) :
  kept_names lines [] = filter Py.truthy (List.map Py.strip lines).
Proof. apply kept_names_acc. Qed.

(* ------------------------------------------------------------------ *)
(** * Reading the names *)

(** C10.  [read_names_from_file] strips every line before keeping it: a
    kept name is its line without a blank prefix and a blank suffix, it is
    not empty and neither its first nor its last character is a whitespace
    character; a line made of whitespace only is stripped to the empty
    string and skipped; the names come in the order of their lines. *)
Theorem read_names_stripped (W : World) (file_path : path) (p : Proc)
                            (text : str) :
  file_text W file_path = Some text ->
  exists names,
    read_names_from_file W file_path p = Ok names p
    /\ names = filter Py.truthy (List.map Py.strip (Py.lines text))
    /\ (forall line, exists before after,
          line = before ++ Py.strip line ++ after
          /\ blank before = true /\ blank after = true)
    /\ Forall (fun name =>
                 name <> []
                 /\ (forall ch rest, name = ch :: rest -> Py.isspace ch = false)
                 /\ (forall ch front,
                       name = front ++ [ch] -> Py.isspace ch = false))
              names
    /\ (forall before line after,
          Py.lines text = before ++ line :: after ->
          blank line = true ->
          Py.strip line = [] /\ names = kept_names (before ++ after) []).
Proof.
  intros Htext.
  exists (filter Py.truthy (List.map Py.strip (Py.lines text))).
  split; [|split; [reflexivity|split; [exact strip_split|split]]].
  - unfold read_names_from_file. rewrite Htext, kept_names_filter. reflexivity.
  - apply Forall_forall. intros name Hin.
    apply filter_In in Hin as [Hin Htrue].
    apply in_map_iff in Hin as (line & Hline & _). subst name.
    split; [|split].
    + intros Hnil. rewrite Hnil in Htrue. discriminate Htrue.
    + apply strip_head.
    + apply strip_last.
  - intros before line after Hlines Hblank.
    pose proof (strip_blank _ Hblank) as Hstrip.
    split; [exact Hstrip|].
    rewrite Hlines, kept_names_filter, !map_app, !filter_app. cbn.
    rewrite Hstrip. reflexivity.
Qed.

Lemma read_names_stripped_witness :
  file_text Example.W Example.names_txt = Some Example.names_text
  /\ read_names_from_file Example.W Example.names_txt fresh
     = Ok [Example.alice; Example.bob] fresh.
Proof.
  split; [reflexivity|].
  destruct (@read_names_stripped Example.W Example.names_txt fresh
              Example.names_text eq_refl)
    as (names & Hrun & Hnames & _).
  rewrite Hrun, Hnames. reflexivity.
Defined.

(* ------------------------------------------------------------------ *)
(** * The script *)

Section MainRuns.

Variable W : World.
Variable args : Args.

Lemma init_custom (lp fp op : path) (p : Proc) :
  path_exists W fp = true ->
  ttf_loadable W fp = true ->
  exists self,
    __init__ W lp fp op p = Ok self p
    /\ font_name_ self = CustomFont /\ output_path self = op.
Proof.
  intros He Hl. unfold __init__, bind, ret. rewrite He, Hl.
  eexists. split; [reflexivity|split; reflexivity].
Qed.

Lemma init_fallback (lp fp op : path) (p : Proc) :
  path_exists W fp = false ->
  exists self,
    __init__ W lp fp op p = Ok self (prints [WarnFontNotFound fp] p)
    /\ font_name_ self = Helvetica /\ output_path self = op.
Proof.
  intros He. unfold __init__, bind, ret, print, modify. rewrite He.
  eexists. split; [reflexivity|split; reflexivity].
Qed.

(** A missing input file: one line is printed and [main] returns 1. *)
Lemma main_missing (p : Proc) :
  path_exists W (names_file args) = false
  \/ path_exists W (logo args) = false
  \/ path_exists W (font args) = false ->
  exists m, main W args p = Ok 1%Z (prints [m] p).
Proof.
  intros H. unfold main.
  destruct (path_exists W (names_file args)) eqn:Hn; cbn.
  2:{ eexists. reflexivity. }
  destruct (path_exists W (logo args)) eqn:Hl; cbn.
  2:{ eexists. reflexivity. }
  destruct (path_exists W (font args)) eqn:Hf; cbn.
  2:{ eexists. reflexivity. }
  destruct H as [H|[H|H]]; discriminate H.
Qed.

Hypothesis names_exists : path_exists W (names_file args) = true.
Hypothesis logo_exists : path_exists W (logo args) = true.
Hypothesis font_exists : path_exists W (font args) = true.

Variable text : str.
Hypothesis names_text : file_text W (names_file args) = Some text.

(** No name in the file: one line is printed and [main] returns 1. *)
Lemma main_no_names (p : Proc) :
  kept_names (Py.lines text) [] = [] ->
  main W args p = Ok 1%Z (prints [ErrNoNames] p).
Proof.
  intros Hk. unfold main.
  rewrite names_exists, logo_exists, font_exists. cbn.
  unfold bind at 1. unfold read_names_from_file.
  rewrite names_text, Hk. reflexivity.
Qed.

(** The run that reaches [generate]. *)
Lemma main_generates (p : Proc) :
  kept_names (Py.lines text) [] <> [] ->
  ttf_loadable W (font args) = true ->
  creatable W (output args) = true ->
  exists self out,
    font_name_ self = CustomFont
    /\ main W args p
       = Ok 0%Z
            {| stdout := out;
               written :=
                 written p
                 ++ [(output args,
                      List.map (page_ops W self)
                               (kept_names (Py.lines text) []))] |}.
Proof.
  intros Hne Hl Hd. unfold main.
  rewrite names_exists, logo_exists, font_exists. cbn.
  unfold bind at 1. unfold read_names_from_file. rewrite names_text.
  unfold ret at 1.
  destruct (kept_names (Py.lines text) []) as [|name names] eqn:Hk;
    [contradiction Hne; reflexivity|].
  cbn [negb]. unfold bind at 1, print at 1, modify at 1.
  unfold bind at 1.
  destruct (init_custom (logo args) (font args) (output args)
              (put_line (MsgLoaded (List.length (name :: names))
                                   (names_file args)) p)
              font_exists Hl) as (self & Hinit & Hfont & Hout).
  rewrite Hinit. unfold bind at 1.
  rewrite generate_run by (rewrite Hout; exact Hd).
  exists self. eexists. split; [exact Hfont|].
  unfold ret. rewrite Hout. reflexivity.
Qed.

(** The run in which [save] cannot create the output file: the exception
    leaves [main], nothing is written. *)
Lemma main_unwritable (p : Proc) :
  kept_names (Py.lines text) [] <> [] ->
  ttf_loadable W (font args) = true ->
  creatable W (output args) = false ->
  exists out,
    main W args p
    = Raise (OSError (output args))
            {| stdout := out; written := written p |}.
Proof.
  intros Hne Hl Hd. unfold main.
  rewrite names_exists, logo_exists, font_exists. cbn.
  unfold bind at 1. unfold read_names_from_file. rewrite names_text.
  unfold ret at 1.
  destruct (kept_names (Py.lines text) []) as [|name names] eqn:Hk;
    [contradiction Hne; reflexivity|].
  cbn [negb]. unfold bind at 1, print at 1, modify at 1.
  unfold bind at 1.
  destruct (init_custom (logo args) (font args) (output args)
              (put_line (MsgLoaded (List.length (name :: names))
                                   (names_file args)) p)
              font_exists Hl) as (self & Hinit & Hfont & Hout).
  rewrite Hinit. unfold bind at 1.
  rewrite generate_unwritable by (rewrite Hout; exact Hd).
  rewrite Hout. eexists. destruct p; reflexivity.
Qed.

End MainRuns.

(** C6, as the code has it.  A names file without a name ends [main] with
    status 1 after one line of output, before a generator or a canvas
    exists, so nothing is written.  [generate] itself does not look at the
    length of its argument: called with the empty list it opens the canvas,
    draws nothing, saves a document without pages (when the output file
    can be created) and reports 0 pages. *)
Theorem empty_names_handling (W : World) :
  (forall (args : Args) (p : Proc) (text : str),
      path_exists W (names_file args) = true ->
      path_exists W (logo args) = true ->
      path_exists W (font args) = true ->
      file_text W (names_file args) = Some text ->
      filter Py.truthy (List.map Py.strip (Py.lines text)) = [] ->
      main W args p
      = Ok 1%Z {| stdout := stdout p ++ [ErrNoNames]; written := written p |})
  /\ (forall (self : self_) (p : Proc),
         creatable W (output_path self) = true ->
         generate W self [] p
         = Ok tt {| stdout := stdout p ++ [MsgGenerated (output_path self);
                                           MsgTotalPages 0];
                    written := written p ++ [(output_path self, [])] |}).
Proof.
  split.
  - intros args p text Hn Hl Hf Htext Hnone.
    apply main_no_names with (text := text); try assumption.
    rewrite kept_names_filter. exact Hnone.
  - intros self p Hc. rewrite generate_run by exact Hc. reflexivity.
Qed.

Lemma empty_names_handling_witness :
  main Example.W
       (Example.args Example.blank_txt Example.logo_png Example.font_ttf)
       fresh
  = Ok 1%Z {| stdout := [ErrNoNames]; written := [] |}
  /\ creatable Example.W (output_path Example.g) = true
  /\ returned (generate Example.W Example.g [] fresh) = true.
Proof.
  split; [|split; [reflexivity|]].
  - apply (proj1 (empty_names_handling Example.W)
             (Example.args Example.blank_txt Example.logo_png
                           Example.font_ttf)
             fresh Example.blank_text);
      reflexivity.
  - rewrite (proj2 (empty_names_handling Example.W) Example.g fresh eq_refl).
    reflexivity.
Defined.

(** C6 as stated fails for [generate([])]: the call returns normally and
    has written a document without pages. *)
Lemma generate_empty_not_rejected :
  generate Example.W Example.g [] fresh
  = Ok tt {| stdout := [MsgGenerated Example.out_pdf; MsgTotalPages 0];
             written := [(Example.out_pdf, [])] |}.
Proof. reflexivity. Qed.

(** C7.  The exit status of the script, once the command line is parsed.
    When the names file, the logo or the font does not exist, [main]
    prints one line and returns 1 and nothing has been written.  The same
    holds when all three exist and the names file holds no name.  On
    success, that is when the three files exist, the names file holds at
    least one name, the font loads and the output file can be created, the
    status is 0 and the document, one page per name, has been written to
    the output path.  When everything else is in place and the output file
    cannot be created, the run is not a success: the exception of [save]
    leaves [main], the status is 1 and nothing has been written. *)
Theorem main_exit_status (W : World) (args : Args) (p : Proc) :
  (path_exists W (names_file args) = false
   \/ path_exists W (logo args) = false
   \/ path_exists W (font args) = false ->
   exit_status W args p = 1%Z
   /\ exists m, main W args p = Ok 1%Z {| stdout := stdout p ++ [m];
                                          written := written p |})
  /\ (forall text,
        path_exists W (names_file args) = true ->
        path_exists W (logo args) = true ->
        path_exists W (font args) = true ->
        file_text W (names_file args) = Some text ->
        kept_names (Py.lines text) [] = [] ->
        exit_status W args p = 1%Z
        /\ main W args p = Ok 1%Z {| stdout := stdout p ++ [ErrNoNames];
                                     written := written p |})
  /\ (forall text,
        path_exists W (names_file args) = true ->
        path_exists W (logo args) = true ->
        path_exists W (font args) = true ->
        file_text W (names_file args) = Some text ->
        kept_names (Py.lines text) [] <> [] ->
        ttf_loadable W (font args) = true ->
        creatable W (output args) = true ->
        exit_status W args p = 0%Z
        /\ exists doc out,
             main W args p
             = Ok 0%Z {| stdout := out;
                         written := written p ++ [(output args, doc)] |}
             /\ List.length doc
                = List.length (kept_names (Py.lines text) []))
  /\ (forall text,
        path_exists W (names_file args) = true ->
        path_exists W (logo args) = true ->
        path_exists W (font args) = true ->
        file_text W (names_file args) = Some text ->
        kept_names (Py.lines text) [] <> [] ->
        ttf_loadable W (font args) = true ->
        creatable W (output args) = false ->
        exit_status W args p = 1%Z
        /\ exists out,
             main W args p
             = Raise (OSError (output args))
                     {| stdout := out; written := written p |}).
Proof.
  split; [|split; [|split]].
  - intros Hmiss. destruct (@main_missing W args p Hmiss) as (m & Hrun).
    unfold exit_status. rewrite Hrun. split; [reflexivity|].
    exists m. reflexivity.
  - intros text Hn Hl Hf Htext Hk.
    pose proof (@main_no_names W args Hn Hl Hf text Htext p Hk) as Hrun.
    unfold exit_status. rewrite Hrun. split; reflexivity.
  - intros text Hn Hl Hf Htext Hk Hfont Hd.
    destruct (@main_generates W args Hn Hl Hf text Htext p Hk Hfont Hd)
      as (self & out & _ & Hrun).
    unfold exit_status. rewrite Hrun. split; [reflexivity|].
    eexists. exists out. split; [reflexivity|]. apply length_map.
  - intros text Hn Hl Hf Htext Hk Hfont Hd.
    destruct (@main_unwritable W args Hn Hl Hf text Htext p Hk Hfont Hd)
      as (out & Hrun).
    unfold exit_status. rewrite Hrun. split; [reflexivity|].
    exists out. reflexivity.
Qed.

Lemma main_exit_status_witness :
  exit_status Example.W
    (Example.args Example.missing Example.logo_png Example.font_ttf) fresh
  = 1%Z
  /\ exit_status Example.W
       (Example.args Example.names_txt Example.missing Example.font_ttf) fresh
     = 1%Z
  /\ exit_status Example.W
       (Example.args Example.names_txt Example.logo_png Example.missing) fresh
     = 1%Z
  /\ exit_status Example.W
       (Example.args Example.blank_txt Example.logo_png Example.font_ttf) fresh
     = 1%Z
  /\ exit_status Example.W
       (Example.args Example.names_txt Example.logo_png Example.font_ttf) fresh
     = 0%Z
  /\ exit_status Example.W
       {| names_file := Example.names_txt; logo := Example.logo_png;
          font := Example.font_ttf; output := Example.nodir_pdf |} fresh
     = 1%Z.
Proof.
  split; [|split; [|split; [|split; [|split]]]].
  - apply (proj1 (main_exit_status Example.W
             (Example.args Example.missing Example.logo_png Example.font_ttf)
             fresh)).
    left. reflexivity.
  - apply (proj1 (main_exit_status Example.W
             (Example.args Example.names_txt Example.missing Example.font_ttf)
             fresh)).
    right. left. reflexivity.
  - apply (proj1 (main_exit_status Example.W
             (Example.args Example.names_txt Example.logo_png Example.missing)
             fresh)).
    right. right. reflexivity.
  - apply (proj1 (proj2 (main_exit_status Example.W
             (Example.args Example.blank_txt Example.logo_png Example.font_ttf)
             fresh)) Example.blank_text);
      reflexivity.
  - apply (proj1 (proj2 (proj2 (main_exit_status Example.W
             (Example.args Example.names_txt Example.logo_png Example.font_ttf)
             fresh))) Example.names_text);
      try reflexivity.
    discriminate.
  - apply (proj2 (proj2 (proj2 (main_exit_status Example.W
             {| names_file := Example.names_txt; logo := Example.logo_png;
                font := Example.font_ttf; output := Example.nodir_pdf |}
             fresh))) Example.names_text);
      try reflexivity.
    discriminate.
Defined.

(* ------------------------------------------------------------------ *)
(** * Missing assets and the scope of the turned frame *)

Lemma logo_msgs_warn (W : World) (self : self_) :
  logo_drawable W self = false ->
  List.length (filter is_warning (logo_msgs W self)) = 1%nat.
Proof.
  unfold logo_drawable, logo_msgs.
  destruct (path_exists W (logo_path self)); cbn; [|reflexivity].
  destruct (image_loadable W (logo_path self)); [discriminate|reflexivity].
Qed.

Lemma body_msgs_warn (W : World) (self : self_) (names : list str) :
  logo_drawable W self = false ->
  List.length (filter is_warning (body_msgs W self names))
  = (2 * List.length names)%nat.
Proof.
  intros Hl. unfold body_msgs.
  induction names as [|name names IH]; cbn [flat_map List.length].
  - reflexivity.
  - rewrite !filter_app, !length_app, IH, (logo_msgs_warn _ _ Hl). lia.
Qed.

(** C8.  A logo that is missing or cannot be loaded, and a font file that
    is missing, do not end the run.  [_draw_logo] never raises.  Without a
    drawable logo, [generate] still writes (the output file being one that
    can be created) one page per name, each showing the name twice and no
    image, and prints two warnings per page.  When the font file does not
    exist, [__init__] prints a warning and selects Helvetica, and every
    text of every page of the run is set in it. *)
Theorem missing_assets_degrade (W : World) :
  (forall self x y width height d,
      returned (_draw_logo W self x y width height d) = true)
  /\ (forall self names p,
         logo_drawable W self = false ->
         creatable W (output_path self) = true ->
         exists doc msgs,
           generate W self names p
           = Ok tt {| stdout := stdout p ++ msgs;
                      written := written p ++ [(output_path self, doc)] |}
           /\ Forall2
                (fun name pg =>
                   exists f x1 y1 turned x2 y2,
                     render pg
                     = [Text [] f x1 y1 name; Text turned f x2 y2 name])
                names doc
           /\ List.length (filter is_warning msgs)
              = (2 * List.length names)%nat)
  /\ (forall logo_path font_path output_path p,
         path_exists W font_path = false ->
         exists self,
           __init__ W logo_path font_path output_path p
           = Ok self {| stdout := stdout p ++ [WarnFontNotFound font_path];
                        written := written p |}
           /\ font_name_ self = Helvetica
           /\ forall names p',
                creatable W output_path = true ->
                exists doc out,
                  generate W self names p'
                  = Ok tt {| stdout := out;
                             written := written p' ++ [(output_path, doc)] |}
                  /\ List.length doc = List.length names
                  /\ Forall (fun pg => Forall (text_font_is Helvetica)
                                              (render pg))
                            doc).
Proof.
  split; [|split].
  - intros self x y width height d. apply draw_logo_returns.
  - intros self names p Hlogo Hd.
    exists (List.map (page_ops W self) names). eexists.
    split; [apply generate_run; exact Hd|]. split.
    + apply Forall2_map_right. intros name.
      rewrite render_page_ops. unfold logo_items. rewrite Hlogo.
      do 6 eexists. reflexivity.
    + rewrite filter_app, length_app, (body_msgs_warn _ _ _ Hlogo).
      cbn. lia.
  - intros lp fp op p Hmiss.
    destruct (init_fallback W lp fp op p Hmiss) as (self & Hinit & Hfont & Hout).
    exists self. split; [exact Hinit|]. split; [exact Hfont|].
    intros names p' Hd.
    exists (List.map (page_ops W self) names). eexists.
    split; [rewrite <- Hout; apply generate_run; rewrite Hout; exact Hd|].
    split; [apply length_map|].
    apply Forall_map_all. intros name.
    rewrite render_page_ops. unfold logo_items. rewrite Hfont.
    destruct (logo_drawable W self); cbn;
      repeat (constructor; cbn; eauto).
Qed.

Lemma missing_assets_degrade_witness :
  logo_drawable Example.W_bare Example.g_bare = false
  /\ path_exists Example.W_bare Example.font_ttf = false
  /\ font_name_ Example.g_bare = Helvetica
  /\ exists doc msgs,
       generate Example.W_bare Example.g_bare [Example.alice; Example.bob]
                fresh
       = Ok tt {| stdout := msgs; written := [(Example.out_pdf, doc)] |}
       /\ List.length doc = 2%nat
       /\ List.length (filter is_warning msgs) = 4%nat.
Proof.
  split; [reflexivity|]. split; [reflexivity|].
  destruct (proj2 (proj2 (missing_assets_degrade Example.W_bare))
              Example.logo_png Example.font_ttf Example.out_pdf fresh eq_refl)
    as (self & Hinit & Hfont & _).
  assert (Hself : self = Example.g_bare).
  { unfold Example.g_bare, Example.build. change {| stdout := []; written := [] |} with fresh.
    rewrite Hinit. reflexivity. }
  subst self. split; [exact Hfont|].
  destruct (proj1 (proj2 (missing_assets_degrade Example.W_bare))
              Example.g_bare [Example.alice; Example.bob] fresh
              eq_refl eq_refl)
    as (doc & msgs & Hrun & Hpages & Hwarn).
  exists doc, msgs. split; [exact Hrun|].
  split; [symmetry; exact (Forall2_length Hpages)|exact Hwarn].
Defined.


(* ------------------------------------------------------------------ *)
(** * Further properties of the layout *)

Local Open Scope Q_scope.




(* ------------------------------------------------------------------ *)
(** * Further properties of [generate] *)

Local Close Scope Q_scope.

Lemma body_msgs_app (W : World) (self : self_) (a b : list str) :
  body_msgs W self (a ++ b) = body_msgs W self a ++ body_msgs W self b.
Proof. apply flat_map_app. Qed.

(** X2.  [generate] returns exactly when [save] can create the output
    file.  Otherwise it draws every page and then leaves by the exception
    of [save]: nothing is written, the pages are lost, and the standard
    output holds the warnings of the loop and neither the "Generated" nor
    the "Total pages" line. *)
Theorem generate_all_or_nothing (W : World) (self : self_) (names : list str)
                                (p : Proc) :
  returned (generate W self names p) = creatable W (output_path self)
  /\ (creatable W (output_path self) = false ->
      generate W self names p
      = Raise (OSError (output_path self))
              {| stdout := stdout p ++ body_msgs W self names;
                 written := written p |}).
Proof.
  split.
  - destruct (creatable W (output_path self)) eqn:Hc.
    + rewrite generate_run by exact Hc. reflexivity.
    + rewrite generate_unwritable by exact Hc. reflexivity.
  - apply generate_unwritable.
Qed.

Lemma generate_all_or_nothing_witness :
  let self := Example.build_at Example.nodir_pdf in
  creatable Example.W (output_path self) = false
  /\ generate Example.W self [Example.bob; Example.alice] fresh
     = Raise (OSError Example.nodir_pdf) fresh.
Proof.
  cbv zeta. split; [reflexivity|].
  rewrite (proj2 (generate_all_or_nothing Example.W
                    (Example.build_at Example.nodir_pdf)
                    [Example.bob; Example.alice] fresh) eq_refl).
  reflexivity.
Defined.

(** X3.  The pages of a name do not depend on the names around it: the
    document of a list of names put together from two lists is the document
    of the first list followed by the document of the second. *)
Theorem generate_app (W : World) (self : self_) (a b : list str) (p : Proc) :
  creatable W (output_path self) = true ->
  exists doc_a doc_b out_a out_b out,
    generate W self a p
    = Ok tt {| stdout := out_a;
               written := written p ++ [(output_path self, doc_a)] |}
    /\ generate W self b p
       = Ok tt {| stdout := out_b;
                  written := written p ++ [(output_path self, doc_b)] |}
    /\ generate W self (a ++ b) p
       = Ok tt {| stdout := out;
                  written := written p
                             ++ [(output_path self, doc_a ++ doc_b)] |}
    /\ List.length doc_a = List.length a
    /\ List.length doc_b = List.length b.
Proof.
  intros Hd.
  exists (List.map (page_ops W self) a), (List.map (page_ops W self) b).
  do 3 eexists.
  split; [apply generate_run; exact Hd|].
  split; [apply generate_run; exact Hd|].
  split; [rewrite <- map_app; apply generate_run; exact Hd|].
  split; apply length_map.
Qed.

Lemma generate_app_witness :
  creatable Example.W (output_path Example.g) = true
  /\ exists doc out,
       generate Example.W Example.g
                ([Example.alice] ++ [Example.bob; Example.alice]) fresh
       = Ok tt {| stdout := out; written := [(Example.out_pdf, doc)] |}
       /\ List.length doc = 3%nat.
Proof.
  split; [reflexivity|].
  destruct (@generate_app Example.W Example.g [Example.alice]
              [Example.bob; Example.alice] fresh eq_refl)
    as (da & db & oa & ob & out & _ & _ & Hrun & Hla & Hlb).
  exists (da ++ db), out. split; [exact Hrun|].
  rewrite length_app, Hla, Hlb. reflexivity.
Defined.

Lemma logo_msgs_warnings (W : World) (self : self_) :
  Forall (fun m => is_warning m = true) (logo_msgs W self)
  /\ (logo_drawable W self = true -> logo_msgs W self = []).
Proof.
  unfold logo_msgs, logo_drawable.
  destruct (path_exists W (logo_path self));
    [destruct (image_loadable W (logo_path self))|]; cbn; split;
    try (intros; reflexivity); try discriminate;
    repeat constructor.
Qed.

Lemma body_msgs_warnings (W : World) (self : self_) (names : list str) :
  Forall (fun m => is_warning m = true) (body_msgs W self names)
  /\ (logo_drawable W self = true -> body_msgs W self names = []).
Proof.
  destruct (logo_msgs_warnings W self) as [Hall Hnone].
  unfold body_msgs. split.
  - induction names as [|n names IH]; cbn.
    + constructor.
    + rewrite !Forall_app. repeat split; assumption.
  - intros Hl. rewrite (Hnone Hl).
    induction names as [|n names IH]; cbn; [reflexivity|exact IH].
Qed.

(** X4.  The report of [generate].  When it returns it has printed, after
    the warnings about the logo, the "Generated" line with the output path
    and the "Total pages" line, and the number it reports is the number of
    pages of the document it has written.  With a logo that can be drawn it
    prints these two lines only. *)
Theorem generate_report (W : World) (self : self_) (names : list str)
                        (p : Proc) :
  creatable W (output_path self) = true ->
  exists doc warnings,
    generate W self names p
    = Ok tt {| stdout := stdout p ++ warnings
                         ++ [MsgGenerated (output_path self);
                             MsgTotalPages (List.length doc)];
               written := written p ++ [(output_path self, doc)] |}
    /\ Forall (fun m => is_warning m = true) warnings
    /\ (logo_drawable W self = true -> warnings = []).
Proof.
  intros Hd.
  exists (List.map (page_ops W self) names), (body_msgs W self names).
  split; [rewrite length_map; apply generate_run; exact Hd|].
  apply body_msgs_warnings.
Qed.

Lemma generate_report_witness :
  creatable Example.W (output_path Example.g) = true
  /\ exists doc,
       generate Example.W Example.g [Example.alice; Example.bob] fresh
       = Ok tt {| stdout := [MsgGenerated Example.out_pdf;
                             MsgTotalPages (List.length doc)];
                  written := [(Example.out_pdf, doc)] |}.
Proof.
  split; [reflexivity|].
  destruct (@generate_report Example.W Example.g
              [Example.alice; Example.bob] fresh eq_refl)
    as (doc & warnings & Hrun & _ & Hnone).
  exists doc. rewrite Hrun, (Hnone eq_refl). reflexivity.
Defined.

(* ------------------------------------------------------------------ *)
(** * Further properties of [main] *)

Section MainCases.

Variable W : World.
Variable args : Args.

Hypothesis names_exists : path_exists W (names_file args) = true.
Hypothesis logo_exists : path_exists W (logo args) = true.
Hypothesis font_exists : path_exists W (font args) = true.

(** The names file is there but cannot be read as text. *)
Lemma main_unreadable (p : Proc) :
  file_text W (names_file args) = None ->
  main W args p = Raise (OSError (names_file args)) p.
Proof.
  intros Hnone. unfold main.
  rewrite names_exists, logo_exists, font_exists. cbn.
  unfold bind at 1. unfold read_names_from_file. rewrite Hnone. reflexivity.
Qed.

Variable text : str.
Hypothesis names_text : file_text W (names_file args) = Some text.

(** From the "Loaded" line on, [main] is [__init__] followed by
    [generate]. *)
Lemma main_loaded (p : Proc) :
  kept_names (Py.lines text) [] <> [] ->
  main W args p
  = (generator <- __init__ W (logo args) (font args) (output args) ;;
     generate W generator (kept_names (Py.lines text) []) ;;
     ret 0%Z)%py
      (prints [MsgLoaded (List.length (kept_names (Py.lines text) []))
                         (names_file args)] p).
Proof.
  intros Hne. unfold main.
  rewrite names_exists, logo_exists, font_exists. cbn.
  unfold bind at 1. unfold read_names_from_file. rewrite names_text.
  unfold ret at 1.
  destruct (kept_names (Py.lines text) []) as [|name names] eqn:Hk;
    [contradiction Hne; reflexivity|].
  cbn [negb]. unfold bind at 1, print at 1, modify at 1. reflexivity.
Qed.

(** The font file is there but [TTFont] rejects it. *)
Lemma main_font_rejected (p : Proc) :
  kept_names (Py.lines text) [] <> [] ->
  ttf_loadable W (font args) = false ->
  main W args p
  = Raise (TTFError (font args))
          (prints [MsgLoaded (List.length (kept_names (Py.lines text) []))
                             (names_file args)] p).
Proof.
  intros Hne Hl. rewrite main_loaded by exact Hne.
  unfold bind at 1, __init__. rewrite font_exists, Hl. reflexivity.
Qed.

(** The generator [main] builds. *)
Lemma main_generator (p : Proc) :
  ttf_loadable W (font args) = true ->
  exists self,
    __init__ W (logo args) (font args) (output args) p = Ok self p
    /\ font_name_ self = CustomFont
    /\ logo_path self = logo args
    /\ output_path self = output args.
Proof.
  intros Hl. unfold __init__, bind, ret. rewrite font_exists, Hl.
  eexists. repeat split.
Qed.

(** [save] cannot create the output file: the exception ends [main]. *)
Lemma main_save_fails (p : Proc) :
  kept_names (Py.lines text) [] <> [] ->
  ttf_loadable W (font args) = true ->
  creatable W (output args) = false ->
  exists self,
    logo_path self = logo args
    /\ main W args p
       = Raise (OSError (output args))
               {| stdout :=
                    stdout p
                    ++ [MsgLoaded
                          (List.length (kept_names (Py.lines text) []))
                          (names_file args)]
                    ++ body_msgs W self (kept_names (Py.lines text) []);
                  written := written p |}.
Proof.
  intros Hne Hl Hc. rewrite main_loaded by exact Hne.
  destruct (main_generator
              (prints [MsgLoaded
                         (List.length (kept_names (Py.lines text) []))
                         (names_file args)] p) Hl)
    as (self & Hinit & _ & Hlogo & Hout).
  exists self. split; [exact Hlogo|].
  unfold bind at 1. rewrite Hinit. unfold bind at 1.
  rewrite generate_unwritable by (rewrite Hout; exact Hc). rewrite Hout.
  destruct p as [out wr]. unfold prints. cbn. rewrite <- !app_assoc.
  reflexivity.
Qed.

(** The run that writes the document, with its standard output. *)
Lemma main_success (p : Proc) :
  kept_names (Py.lines text) [] <> [] ->
  ttf_loadable W (font args) = true ->
  creatable W (output args) = true ->
  exists self,
    font_name_ self = CustomFont
    /\ logo_path self = logo args
    /\ main W args p
       = Ok 0%Z
            {| stdout :=
                 stdout p
                 ++ [MsgLoaded (List.length (kept_names (Py.lines text) []))
                               (names_file args)]
                 ++ body_msgs W self (kept_names (Py.lines text) [])
                 ++ [MsgGenerated (output args);
                     MsgTotalPages
                       (List.length (kept_names (Py.lines text) []))];
               written :=
                 written p
                 ++ [(output args,
                      List.map (page_ops W self)
                               (kept_names (Py.lines text) []))] |}.
Proof.
  intros Hne Hl Hd. rewrite main_loaded by exact Hne.
  destruct (main_generator
              (prints [MsgLoaded
                         (List.length (kept_names (Py.lines text) []))
                         (names_file args)] p) Hl)
    as (self & Hinit & Hfont & Hlogo & Hout).
  exists self. split; [exact Hfont|]. split; [exact Hlogo|].
  unfold bind at 1. rewrite Hinit. unfold bind at 1.
  rewrite generate_run by (rewrite Hout; exact Hd). unfold ret. rewrite Hout.
  destruct p as [out wr]. unfold prints. cbn. rewrite <- !app_assoc.
  reflexivity.
Qed.

End MainCases.

(** X5.  Once [parse_args] has returned the arguments, [main] ends in one
    of two ways, whatever the files and the output path are: with status
    0, having written exactly one document, at the output path; or with
    status 1, by [return 1] or by an exception nobody catches, having
    written nothing. *)
Theorem main_writes_iff_success (W : World) (args : Args) (p : Proc) :
  (exit_status W args p = 0%Z
   /\ exists doc out,
        main W args p
        = Ok 0%Z {| stdout := out;
                    written := written p ++ [(output args, doc)] |})
  \/ (exit_status W args p = 1%Z
      /\ written (state_of (main W args p)) = written p).
Proof.
  unfold exit_status.
  destruct (path_exists W (names_file args)) eqn:Hn.
  2:{ right. destruct (@main_missing W args p (or_introl Hn)) as (m & Hrun).
      rewrite Hrun. split; reflexivity. }
  destruct (path_exists W (logo args)) eqn:Hl.
  2:{ right.
      destruct (@main_missing W args p (or_intror (or_introl Hl)))
        as (m & Hrun).
      rewrite Hrun. split; reflexivity. }
  destruct (path_exists W (font args)) eqn:Hf.
  2:{ right.
      destruct (@main_missing W args p (or_intror (or_intror Hf)))
        as (m & Hrun).
      rewrite Hrun. split; reflexivity. }
  destruct (file_text W (names_file args)) as [text|] eqn:Htext.
  2:{ right. rewrite main_unreadable by assumption. split; reflexivity. }
  destruct (kept_names (Py.lines text) []) as [|n0 ns] eqn:Hk.
  { right. rewrite (@main_no_names W args Hn Hl Hf text Htext p Hk).
    split; reflexivity. }
  assert (Hne : kept_names (Py.lines text) [] <> [])
    by (rewrite Hk; discriminate).
  destruct (ttf_loadable W (font args)) eqn:Hfont.
  2:{ right.
      rewrite (@main_font_rejected W args Hn Hl Hf text Htext p Hne Hfont).
      split; reflexivity. }
  destruct (creatable W (output args)) eqn:Hd.
  - left.
    destruct (@main_success W args Hn Hl Hf text Htext p Hne Hfont Hd)
      as (self & _ & _ & Hrun).
    rewrite Hrun. split; [reflexivity|]. eexists. eexists. reflexivity.
  - right.
    destruct (@main_save_fails W args Hn Hl Hf text Htext p Hne Hfont Hd)
      as (self & _ & Hrun).
    rewrite Hrun. split; reflexivity.
Qed.

Lemma logo_msgs_found (W : World) (self : self_) :
  path_exists W (logo_path self) = true ->
  Forall (fun m => not_found_warning m = false) (logo_msgs W self).
Proof.
  intros He. unfold logo_msgs. rewrite He.
  destruct (image_loadable W (logo_path self)); repeat constructor.
Qed.

Lemma body_msgs_found (W : World) (self : self_) (names : list str) :
  path_exists W (logo_path self) = true ->
  Forall (fun m => not_found_warning m = false) (body_msgs W self names).
Proof.
  intros He. pose proof (logo_msgs_found W self He) as Hl.
  unfold body_msgs. induction names as [|n names IH]; cbn.
  - constructor.
  - rewrite !Forall_app. repeat split; assumption.
Qed.

(** X6.  [main] validates the logo and the font before it builds the
    generator, so the two fall-backs of the generator for a file that does
    not exist are never taken in a run of [main]: none of the lines it
    prints is the warning of the Helvetica fall-back or the warning of a
    logo that was not found. *)
Theorem main_never_falls_back (W : World) (args : Args) (p : Proc) :
  exists printed,
    stdout (state_of (main W args p)) = stdout p ++ printed
    /\ Forall (fun m => not_found_warning m = false) printed.
Proof.
  destruct (path_exists W (names_file args)) eqn:Hn.
  2:{ exists [ErrNamesNotFound (names_file args)]. unfold main. rewrite Hn.
      split; [reflexivity|repeat constructor]. }
  destruct (path_exists W (logo args)) eqn:Hl.
  2:{ exists [ErrLogoNotFound (logo args)]. unfold main. rewrite Hn, Hl.
      split; [reflexivity|repeat constructor]. }
  destruct (path_exists W (font args)) eqn:Hf.
  2:{ exists [ErrFontNotFound (font args)]. unfold main. rewrite Hn, Hl, Hf.
      split; [reflexivity|repeat constructor]. }
  destruct (file_text W (names_file args)) as [text|] eqn:Htext.
  2:{ exists []. rewrite main_unreadable by assumption.
      split; [cbn; rewrite app_nil_r; reflexivity|constructor]. }
  destruct (kept_names (Py.lines text) []) as [|n0 ns] eqn:Hk.
  { exists [ErrNoNames].
    rewrite (@main_no_names W args Hn Hl Hf text Htext p Hk).
    split; [reflexivity|repeat constructor]. }
  assert (Hne : kept_names (Py.lines text) [] <> [])
    by (rewrite Hk; discriminate).
  destruct (ttf_loadable W (font args)) eqn:Hfont.
  2:{ eexists.
      rewrite (@main_font_rejected W args Hn Hl Hf text Htext p Hne Hfont).
      split; [reflexivity|repeat constructor]. }
  destruct (creatable W (output args)) eqn:Hd.
  - destruct (@main_success W args Hn Hl Hf text Htext p Hne Hfont Hd)
      as (self & _ & Hlogo & Hrun).
    rewrite Hrun. eexists. split; [reflexivity|].
    rewrite !Forall_app. split; [repeat constructor|].
    split; [|repeat constructor].
    apply body_msgs_found. rewrite Hlogo. exact Hl.
  - destruct (@main_save_fails W args Hn Hl Hf text Htext p Hne Hfont Hd)
      as (self & Hlogo & Hrun).
    rewrite Hrun. eexists. split; [reflexivity|].
    rewrite !Forall_app. split; [repeat constructor|].
    apply body_msgs_found. rewrite Hlogo. exact Hl.
Qed.

(** X7.  End to end: when the three files exist, the names file can be
    read and holds a name, the font loads and the output file can be
    created, [main] writes at the output path a document whose pages are,
    in order, those of the lines of the names file that are not blank:
    page [i] shows the stripped line [i], twice, set in the custom font. *)
Theorem main_end_to_end (W : World) (args : Args) (p : Proc) (text : str) :
  path_exists W (names_file args) = true ->
  path_exists W (logo args) = true ->
  path_exists W (font args) = true ->
  file_text W (names_file args) = Some text ->
  filter Py.truthy (List.map Py.strip (Py.lines text)) <> [] ->
  ttf_loadable W (font args) = true ->
  creatable W (output args) = true ->
  exists doc out,
    main W args p
    = Ok 0%Z {| stdout := out;
                written := written p ++ [(output args, doc)] |}
    /\ Forall2
         (fun name pg =>
            texts_of (render pg) = [name; name]
            /\ Forall (text_font_is CustomFont) (render pg))
         (filter Py.truthy (List.map Py.strip (Py.lines text))) doc.
Proof.
  rewrite <- kept_names_filter.
  intros Hn Hl Hf Htext Hne Hfont Hd.
  destruct (@main_success W args Hn Hl Hf text Htext p Hne Hfont Hd)
    as (self & Hcustom & _ & Hrun).
  rewrite Hrun. eexists. eexists. split; [reflexivity|].
  apply Forall2_map_right. intros name.
  rewrite render_page_ops. unfold logo_items. rewrite Hcustom.
  destruct (logo_drawable W self); cbn;
    (split; [reflexivity|repeat (constructor; cbn; eauto)]).
Qed.

Lemma main_end_to_end_witness :
  exists doc out,
    main Example.W
         (Example.args Example.names_txt Example.logo_png Example.font_ttf)
         fresh
    = Ok 0%Z {| stdout := out; written := [(Example.out_pdf, doc)] |}
    /\ List.map (fun pg => texts_of (render pg)) doc
       = [[Example.alice; Example.alice]; [Example.bob; Example.bob]].
Proof.
  assert (Hne : filter Py.truthy
                  (List.map Py.strip (Py.lines Example.names_text)) <> [])
    by (vm_compute; discriminate).
  destruct (@main_end_to_end Example.W
              (Example.args Example.names_txt Example.logo_png
                            Example.font_ttf)
              fresh Example.names_text
              eq_refl eq_refl eq_refl eq_refl Hne eq_refl eq_refl)
    as (doc & out & Hrun & Hpages).
  exists doc, out. split; [exact Hrun|].
  change (filter Py.truthy (List.map Py.strip (Py.lines Example.names_text)))
    with [Example.alice; Example.bob] in Hpages.
  inversion Hpages as [|n1 pg1 ns1 doc1 [H1 _] Hrest1]; subst.
  inversion Hrest1 as [|n2 pg2 ns2 doc2 [H2 _] Hrest2]; subst.
  inversion Hrest2; subst.
  cbn [List.map]. rewrite H1, H2. reflexivity.
Defined.

(** X8.  The checks of [main] are checks of existence only.  A names file
    that exists but cannot be opened or decoded ends [main] by the
    exception of [open], before anything is printed; a font file that
    exists but is rejected by [TTFont] ends it by that exception after the
    "Loaded" line.  In both cases nothing is written. *)
Theorem main_error_propagation (W : World) (args : Args) (p : Proc) :
  path_exists W (names_file args) = true ->
  path_exists W (logo args) = true ->
  path_exists W (font args) = true ->
  (file_text W (names_file args) = None ->
   main W args p = Raise (OSError (names_file args)) p)
  /\ (forall text,
        file_text W (names_file args) = Some text ->
        filter Py.truthy (List.map Py.strip (Py.lines text)) <> [] ->
        ttf_loadable W (font args) = false ->
        main W args p
        = Raise (TTFError (font args))
                {| stdout :=
                     stdout p
                     ++ [MsgLoaded
                           (List.length
                              (filter Py.truthy
                                 (List.map Py.strip (Py.lines text))))
                           (names_file args)];
                   written := written p |}).
Proof.
  intros Hn Hl Hf. split.
  - intros Hnone. apply main_unreadable; assumption.
  - intros text Htext Hne Hfont. rewrite <- kept_names_filter in *.
    apply main_font_rejected; assumption.
Qed.

Lemma main_error_propagation_witness :
  main Example.W
       (Example.args Example.logo_png Example.logo_png Example.font_ttf)
       fresh
  = Raise (OSError Example.logo_png) fresh
  /\ main Example.W
          (Example.args Example.names_txt Example.logo_png Example.logo_png)
          fresh
     = Raise (TTFError Example.logo_png)
             {| stdout := [MsgLoaded 2 Example.names_txt]; written := [] |}.
Proof.
  split.
  - apply (proj1 (@main_error_propagation Example.W
                    (Example.args Example.logo_png Example.logo_png
                                  Example.font_ttf)
                    fresh eq_refl eq_refl eq_refl)).
    reflexivity.
  - apply (proj2 (@main_error_propagation Example.W
                    (Example.args Example.names_txt Example.logo_png
                                  Example.logo_png)
                    fresh eq_refl eq_refl eq_refl) Example.names_text).
    + reflexivity.
    + vm_compute. discriminate.
    + reflexivity.
Defined.

(* ------------------------------------------------------------------ *)
(** * Further properties of [read_names_from_file] *)

Lemma blank_app (a b : str) : blank (a ++ b) = blank a && blank b.
Proof. apply forallb_app. Qed.

Lemma strip_nil_blank (s : str) : Py.strip s = [] -> blank s = true.
Proof.
  intros H. destruct (strip_split s) as (before & after & Hs & Hb & Ha).
  rewrite Hs, H, !blank_app, Hb, Ha. reflexivity.
Qed.

Lemma truthy_strip (s : str) : Py.truthy (Py.strip s) = negb (blank s).
Proof.
  destruct (blank s) eqn:Hb.
  - rewrite (strip_blank _ Hb). reflexivity.
  - destruct (Py.strip s) eqn:Hs; [|reflexivity].
    rewrite (strip_nil_blank _ Hs) in Hb. discriminate Hb.
Qed.

Lemma lstrip_id (s : str) :
  (forall ch rest, s = ch :: rest -> Py.isspace ch = false) ->
  Py.lstrip s = s.
Proof.
  destruct s as [|a s]; intros H; cbn; [reflexivity|].
  rewrite (H a s eq_refl). reflexivity.
Qed.

Lemma rstrip_id (s : str) :
  (forall ch front, s = front ++ [ch] -> Py.isspace ch = false) ->
  Py.rstrip s = s.
Proof.
  intros H. unfold Py.rstrip. rewrite lstrip_id; [apply rev_involutive|].
  intros ch rest Hrev. apply (H ch (rev rest)).
  rewrite <- (rev_involutive s), Hrev. reflexivity.
Qed.

Lemma strip_idempotent (s : str) : Py.strip (Py.strip s) = Py.strip s.
Proof.
  unfold Py.strip at 1.
  rewrite lstrip_id; [apply rstrip_id|].
  - intros ch front H. exact (@strip_last _ _ _ H).
  - intros ch rest H. exact (@strip_head _ _ _ H).
Qed.

Lemma lstrip_app_space (s : str) (ch : char) :
  Py.isspace ch = true ->
  Py.lstrip (s ++ [ch]) = if blank s then [] else Py.lstrip s ++ [ch].
Proof.
  intros Hc. unfold blank. induction s as [|a s IH]; cbn.
  - rewrite Hc. reflexivity.
  - destruct (Py.isspace a); cbn; [exact IH|reflexivity].
Qed.

Lemma rstrip_app_space (s : str) (ch : char) :
  Py.isspace ch = true -> Py.rstrip (s ++ [ch]) = Py.rstrip s.
Proof.
  intros Hc. unfold Py.rstrip. rewrite rev_app_distr. cbn.
  rewrite Hc. reflexivity.
Qed.

(** The line end does not survive [strip]. *)
Lemma strip_app_space (s : str) (ch : char) :
  Py.isspace ch = true -> Py.strip (s ++ [ch]) = Py.strip s.
Proof.
  intros Hc. unfold Py.strip. rewrite lstrip_app_space by exact Hc.
  destruct (blank s) eqn:Hb.
  - rewrite (lstrip_blank _ Hb). reflexivity.
  - apply rstrip_app_space. exact Hc.
Qed.

Lemma one_line_app (a b : str) : one_line (a ++ b) = one_line a && one_line b.
Proof. apply forallb_app. Qed.

Lemma one_line_rev (s : str) : one_line (rev s) = one_line s.
Proof.
  unfold one_line. induction s as [|a s IH]; cbn.
  - reflexivity.
  - rewrite forallb_app, IH. cbn. rewrite andb_true_r. apply andb_comm.
Qed.

Lemma one_line_strip (s : str) : one_line s = true -> one_line (Py.strip s) = true.
Proof.
  intros H. destruct (strip_split s) as (before & after & Hs & _ & _).
  rewrite Hs, !one_line_app in H.
  apply andb_true_iff in H as [_ H]. apply andb_true_iff in H as [H _].
  exact H.
Qed.

Lemma iter_lines_shape (n : nat) : forall text cur,
  (List.length text <= n)%nat ->
  one_line cur = true ->
  Forall line_shape (Py.iter_lines cur text).
Proof.
  assert (Hend : forall cur, one_line cur = true ->
                             line_shape (rev (Py.LF :: cur))).
  { intros cur Hc. exists (rev cur). rewrite one_line_rev.
    split; [exact Hc|right; reflexivity]. }
  induction n as [|n IH]; intros text cur Hlen Hcur.
  - destruct text; [|cbn in Hlen; lia].
    cbn. destruct cur; [constructor|].
    constructor; [|constructor].
    exists (rev (c0 :: cur)). rewrite one_line_rev. split; [exact Hcur|left; reflexivity].
  - destruct text as [|ch rest].
    + cbn. destruct cur; [constructor|].
      constructor; [|constructor].
      exists (rev (c0 :: cur)). rewrite one_line_rev.
      split; [exact Hcur|left; reflexivity].
    + cbn in Hlen. cbn [Py.iter_lines].
      destruct (ch =? Py.LF)%N eqn:Hlf.
      { constructor; [apply Hend; exact Hcur|].
        apply IH; [lia|reflexivity]. }
      destruct (ch =? Py.CR)%N eqn:Hcr.
      { destruct rest as [|ch' rest'].
        - constructor; [apply Hend; exact Hcur|].
          apply IH; [cbn; lia|reflexivity].
        - destruct (ch' =? Py.LF)%N.
          + constructor; [apply Hend; exact Hcur|].
            apply IH; [cbn in Hlen; lia|reflexivity].
          + constructor; [apply Hend; exact Hcur|].
            apply IH; [lia|reflexivity]. }
      apply IH; [lia|].
      change (one_line (ch :: cur))
        with (negb (is_break ch) && one_line cur).
      rewrite Hcur. unfold is_break. rewrite Hlf, Hcr. reflexivity.
Qed.

Lemma lines_shape (text : str) : Forall line_shape (Py.lines text).
Proof.
  apply (iter_lines_shape (n := List.length text)); [lia|reflexivity].
Qed.

Lemma strip_line_shape (l : str) :
  line_shape l -> one_line (Py.strip l) = true.
Proof.
  intros (body & Hbody & [Hl|Hl]); subst l.
  - apply one_line_strip. exact Hbody.
  - rewrite strip_app_space by reflexivity. apply one_line_strip. exact Hbody.
Qed.

Lemma iter_lines_line (name : str) : forall cur rest,
  one_line name = true ->
  Py.iter_lines cur (name ++ Py.LF :: rest)
  = (rev cur ++ name ++ [Py.LF]) :: Py.iter_lines [] rest.
Proof.
  induction name as [|a name IH]; intros cur rest Hone.
  - reflexivity.
  - change (one_line (a :: name)) with (negb (is_break a) && one_line name)
      in Hone.
    apply andb_true_iff in Hone as [Ha Hname].
    unfold is_break in Ha. apply negb_true_iff, orb_false_iff in Ha as [Hlf Hcr].
    cbn [app Py.iter_lines]. rewrite Hlf, Hcr.
    rewrite IH by exact Hname. cbn [rev]. rewrite <- !app_assoc. reflexivity.
Qed.

Lemma lines_unlines (names : list str) :
  Forall (fun name => one_line name = true) names ->
  Py.lines (unlines names) = List.map (fun name => name ++ [Py.LF]) names.
Proof.
  unfold Py.lines. induction 1 as [|name names Hname _ IH].
  - reflexivity.
  - change (unlines (name :: names))
      with ((name ++ [Py.LF]) ++ unlines names).
    rewrite <- app_assoc. cbn [app].
    rewrite iter_lines_line by exact Hname. cbn [rev app List.map].
    rewrite IH. reflexivity.
Qed.

Lemma kept_names_one_line (lines : list str) :
  Forall line_shape lines ->
  Forall (fun name => one_line name = true) (kept_names lines []).
Proof.
  intros Hshape. rewrite kept_names_filter. apply Forall_forall.
  intros name Hin. apply filter_In in Hin as [Hin _].
  apply in_map_iff in Hin as (l & Hl & Hinl). subst name.
  apply strip_line_shape. rewrite Forall_forall in Hshape. auto.
Qed.

Lemma kept_names_fixed (lines : list str) :
  Forall (fun name => Py.strip name = name /\ Py.truthy name = true)
         (kept_names lines []).
Proof.
  rewrite kept_names_filter. apply Forall_forall.
  intros name Hin. apply filter_In in Hin as [Hin Htrue].
  apply in_map_iff in Hin as (l & Hl & _). subst name.
  split; [apply strip_idempotent|exact Htrue].
Qed.

Lemma kept_names_of_names (names : list str) :
  Forall (fun name => Py.strip name = name /\ Py.truthy name = true) names ->
  kept_names (List.map (fun name => name ++ [Py.LF]) names) [] = names.
Proof.
  rewrite kept_names_filter.
  induction 1 as [|name names [Hfix Htrue] _ IH]; cbn [List.map filter].
  - reflexivity.
  - rewrite strip_app_space by reflexivity. rewrite Hfix, Htrue, IH.
    reflexivity.
Qed.

(** X9.  Round trip: a file that holds the names [read_names_from_file]
    has returned, one per line, is read back as the same list of names. *)
Theorem read_names_round_trip (W W' : World) (file_path file_path' : path)
                              (p p' : Proc) (text : str) :
  file_text W file_path = Some text ->
  file_text W' file_path'
  = Some (unlines (filter Py.truthy (List.map Py.strip (Py.lines text)))) ->
  exists names,
    read_names_from_file W file_path p = Ok names p
    /\ read_names_from_file W' file_path' p' = Ok names p'.
Proof.
  rewrite <- kept_names_filter. intros Htext Htext'.
  exists (kept_names (Py.lines text) []).
  unfold read_names_from_file. rewrite Htext, Htext'.
  split; [reflexivity|].
  rewrite lines_unlines
    by (apply kept_names_one_line, lines_shape).
  rewrite kept_names_of_names by apply kept_names_fixed.
  reflexivity.
Qed.

Lemma read_names_round_trip_witness :
  read_names_from_file Example.W Example.names_txt fresh
  = Ok [Example.alice; Example.bob] fresh
  /\ read_names_from_file W_rewritten Example.names_txt fresh
     = Ok [Example.alice; Example.bob] fresh.
Proof.
  destruct (@read_names_round_trip Example.W W_rewritten Example.names_txt
              Example.names_txt fresh fresh Example.names_text
              eq_refl eq_refl)
    as (names & Hrun & Hrun').
  assert (Hnames : names = [Example.alice; Example.bob]).
  { assert (H : Ok names fresh = Ok [Example.alice; Example.bob] fresh)
      by (rewrite <- Hrun; reflexivity).
    inversion H. reflexivity. }
  subst names. split; assumption.
Defined.

(** X10.  Every name [read_names_from_file] returns is a single line: it
    holds neither a line feed nor a carriage return, whatever line ends the
    file uses. *)
Theorem names_are_single_lines (W : World) (file_path : path) (p : Proc)
                               (text : str) :
  file_text W file_path = Some text ->
  exists names,
    read_names_from_file W file_path p = Ok names p
    /\ Forall (fun name => forall ch,
                 In ch name -> ch <> Py.LF /\ ch <> Py.CR)
              names.
Proof.
  intros Htext. exists (kept_names (Py.lines text) []).
  unfold read_names_from_file. rewrite Htext. split; [reflexivity|].
  pose proof (kept_names_one_line (lines_shape text)) as Hone.
  rewrite Forall_forall in *. intros name Hin ch Hch.
  specialize (Hone name Hin). unfold one_line in Hone.
  rewrite forallb_forall in Hone. specialize (Hone ch Hch).
  unfold is_break in Hone.
  apply negb_true_iff, orb_false_iff in Hone as [Hlf Hcr].
  apply N.eqb_neq in Hlf, Hcr. split; assumption.
Qed.

Lemma names_are_single_lines_witness :
  file_text Example.W Example.names_txt = Some Example.names_text
  /\ exists names,
       read_names_from_file Example.W Example.names_txt fresh
       = Ok names fresh
       /\ Forall (fun name => forall ch,
                    In ch name -> ch <> Py.LF /\ ch <> Py.CR)
                 names.
Proof.
  split; [reflexivity|].
  exact (@names_are_single_lines Example.W Example.names_txt fresh
           Example.names_text eq_refl).
Defined.

Lemma filter_map_strip (lines : list str) :
  filter Py.truthy (List.map Py.strip lines)
  = List.map Py.strip (filter (fun l => negb (blank l)) lines).
Proof.
  induction lines as [|l lines IH]; cbn.
  - reflexivity.
  - rewrite truthy_strip. destruct (blank l); cbn; rewrite IH; reflexivity.
Qed.

(** X11.  A line of the names file yields a name exactly when it is not
    blank: the names are the stripped lines that hold a character other
    than whitespace, so there are as many names as such lines, and never
    more names than lines. *)
Theorem names_of_nonblank_lines (W : World) (file_path : path) (p : Proc)
                                (text : str) :
  file_text W file_path = Some text ->
  exists names,
    read_names_from_file W file_path p = Ok names p
    /\ names = List.map Py.strip
                        (filter (fun l => negb (blank l)) (Py.lines text))
    /\ List.length names
       = List.length (filter (fun l => negb (blank l)) (Py.lines text))
    /\ (List.length names <= List.length (Py.lines text))%nat.
Proof.
  intros Htext.
  exists (List.map Py.strip (filter (fun l => negb (blank l)) (Py.lines text))).
  unfold read_names_from_file.
  rewrite Htext, kept_names_filter, filter_map_strip.
  split; [reflexivity|]. split; [reflexivity|].
  rewrite length_map. split; [reflexivity|apply filter_length_le].
Qed.

Lemma names_of_nonblank_lines_witness :
  file_text Example.W Example.names_txt = Some Example.names_text
  /\ List.length (Py.lines Example.names_text) = 4%nat
  /\ exists names,
       read_names_from_file Example.W Example.names_txt fresh
       = Ok names fresh
       /\ List.length names = 2%nat.
Proof.
  split; [reflexivity|]. split; [reflexivity|].
  destruct (@names_of_nonblank_lines Example.W Example.names_txt fresh
              Example.names_text eq_refl)
    as (names & Hrun & _ & Hlen & _).
  exists names. split; [exact Hrun|]. rewrite Hlen. reflexivity.
Defined.

(* ------------------------------------------------------------------ *)
(** * [example_usage.py] *)

Import ExampleUsage.

Lemma call_ok {A} (m : M Proc A) (u : Script) (a : A) (out : list message)
              (wr : list (path * document)) :
  m {| stdout := []; written := files u |}
  = Ok a {| stdout := out; written := wr |} ->
  call m u
  = Ok a {| console := console u ++ List.map FromModule out; files := wr |}.
Proof. intros H. unfold call. rewrite H. reflexivity. Qed.

Lemma call_raise {A} (m : M Proc A) (u : Script) (e : exn)
                 (out : list message) (wr : list (path * document)) :
  m {| stdout := []; written := files u |}
  = Raise e {| stdout := out; written := wr |} ->
  call m u
  = Raise e {| console := console u ++ List.map FromModule out;
               files := wr |}.
Proof. intros H. unfold call. rewrite H. reflexivity. Qed.

(** [__init__] returns when the font file is absent or loads. *)
Lemma init_returns (W : World) (lp fp op : path) :
  font_usable W fp = true ->
  exists self msgs,
    output_path self = op
    /\ forall p,
         __init__ W lp fp op p
         = Ok self {| stdout := stdout p ++ msgs; written := written p |}.
Proof.
  unfold font_usable, __init__, bind, ret, print, modify. intros H.
  destruct (path_exists W fp); cbn in H.
  - rewrite H. eexists. exists []. split; cycle 1.
    + intros p. destruct p; cbn; rewrite app_nil_r; reflexivity.
    + reflexivity.
  - eexists. eexists. split; cycle 1.
    + intros p. reflexivity.
    + reflexivity.
Qed.

(** X12.  [example_usage.py], when nothing fails.  If the sample font is
    absent or loads, the names file can be read and the two output files
    can be created, the script returns and has written two documents: the three
    example names, one page each, at "my_nameplates.pdf", then the names of
    the file, one page each, at the default path "nameplates.pdf".  The
    script does not look at the number of names: a file without a name
    gives a second document without pages. *)
Theorem script_writes_two_documents (W : World) (u : Script) (text : str) :
  font_usable W sample_font = true ->
  creatable W my_nameplates = true ->
  file_text W sample_names = Some text ->
  creatable W output_path_default = true ->
  exists doc1 doc2 out,
    script W u
    = Ok tt {| console := console u ++ out ++ [SaidGeneratedFromFile];
               files := files u ++ [(my_nameplates, doc1);
                                    (output_path_default, doc2)] |}
    /\ In SaidGenerated out
    /\ Forall2 (fun name pg => texts_of (render pg) = [name; name])
               example_names doc1
    /\ Forall2 (fun name pg => texts_of (render pg) = [name; name])
               (filter Py.truthy (List.map Py.strip (Py.lines text))) doc2.
Proof.
  rewrite <- kept_names_filter. intros Hfont Hex Htext Hd.
  unfold script. cbv zeta.
  destruct (init_returns W sample_logo sample_font my_nameplates Hfont)
    as (self1 & msgs1 & Hout1 & Hinit1).
  destruct (init_returns W sample_logo sample_font output_path_default Hfont)
    as (self2 & msgs2 & Hout2 & Hinit2).
  unfold bind at 1. rewrite (call_ok _ _ (Hinit1 _)). unfold bind at 1.
  erewrite call_ok by (apply generate_run; rewrite Hout1; exact Hex).
  unfold bind at 1, say at 1, modify at 1. unfold bind at 1.
  erewrite call_ok
    by (unfold read_names_from_file; rewrite Htext; reflexivity).
  unfold bind at 1. rewrite (call_ok _ _ (Hinit2 _)). unfold bind at 1.
  erewrite call_ok by (apply generate_run; rewrite Hout2; exact Hd).
  unfold say, modify. cbn [files console stdout written].
  exists (List.map (page_ops W self1) example_names),
         (List.map (page_ops W self2) (kept_names (Py.lines text) [])).
  exists (List.map FromModule msgs1
          ++ List.map FromModule
               (body_msgs W self1 example_names
                ++ [MsgGenerated my_nameplates;
                    MsgTotalPages (List.length example_names)])
          ++ [SaidGenerated]
          ++ List.map FromModule msgs2
          ++ List.map FromModule
               (body_msgs W self2 (kept_names (Py.lines text) [])
                ++ [MsgGenerated output_path_default;
                    MsgTotalPages
                      (List.length (kept_names (Py.lines text) []))])).
  split; [|split; [|split]].
  - rewrite Hout1, Hout2.
    change (List.map FromModule []) with (@nil line).
    rewrite !app_nil_l, !app_nil_r, <- !app_assoc. reflexivity.
  - rewrite !in_app_iff. right. right. left. left. reflexivity.
  - apply Forall2_map_right. intros name.
    rewrite render_page_ops. unfold logo_items.
    destruct (logo_drawable W self1); reflexivity.
  - apply Forall2_map_right. intros name.
    rewrite render_page_ops. unfold logo_items.
    destruct (logo_drawable W self2); reflexivity.
Qed.

Lemma script_writes_two_documents_witness :
  exists doc1 doc2 out,
    script W_samples fresh_script
    = Ok tt {| console := out;
               files := [(my_nameplates, doc1);
                         (output_path_default, doc2)] |}
    /\ List.length doc1 = 3%nat
    /\ List.length doc2 = 2%nat.
Proof.
  destruct (@script_writes_two_documents W_samples fresh_script
              Example.names_text eq_refl eq_refl eq_refl eq_refl)
    as (doc1 & doc2 & out & Hrun & _ & Hp1 & Hp2).
  exists doc1, doc2. eexists. split; [exact Hrun|].
  split; symmetry; [exact (Forall2_length Hp1)|exact (Forall2_length Hp2)].
Defined.

(** X13.  [example_usage.py], when the names file cannot be read.  The
    script calls [read_names_from_file] without a check: the exception of
    [open] ends it after the first example, so the line "Generated
    nameplates successfully!" has been printed and the document of the
    three example names stays written at "my_nameplates.pdf"; the second
    document is not written. *)
Theorem script_keeps_first_document (W : World) (u : Script) :
  font_usable W sample_font = true ->
  creatable W my_nameplates = true ->
  file_text W sample_names = None ->
  exists doc1 out,
    script W u
    = Raise (OSError sample_names)
            {| console := console u ++ out ++ [SaidGenerated];
               files := files u ++ [(my_nameplates, doc1)] |}
    /\ Forall2 (fun name pg => texts_of (render pg) = [name; name])
               example_names doc1.
Proof.
  intros Hfont Hex Htext.
  unfold script. cbv zeta.
  destruct (init_returns W sample_logo sample_font my_nameplates Hfont)
    as (self1 & msgs1 & Hout1 & Hinit1).
  unfold bind at 1. rewrite (call_ok _ _ (Hinit1 _)). unfold bind at 1.
  erewrite call_ok by (apply generate_run; rewrite Hout1; exact Hex).
  unfold bind at 1, say at 1, modify at 1. unfold bind at 1.
  erewrite call_raise
    by (unfold read_names_from_file; rewrite Htext; reflexivity).
  cbn [files console].
  exists (List.map (page_ops W self1) example_names).
  exists (List.map FromModule msgs1
          ++ List.map FromModule
               (body_msgs W self1 example_names
                ++ [MsgGenerated my_nameplates;
                    MsgTotalPages (List.length example_names)])).
  split.
  - rewrite Hout1.
    change (List.map FromModule []) with (@nil line).
    rewrite !app_nil_l, !app_nil_r, <- !app_assoc. reflexivity.
  - apply Forall2_map_right. intros name.
    rewrite render_page_ops. unfold logo_items.
    destruct (logo_drawable W self1); reflexivity.
Qed.

Lemma script_keeps_first_document_witness :
  exists doc1 out,
    script W_no_names fresh_script
    = Raise (OSError sample_names)
            {| console := out; files := [(my_nameplates, doc1)] |}
    /\ List.length doc1 = 3%nat.
Proof.
  destruct (@script_keeps_first_document W_no_names fresh_script
              eq_refl eq_refl eq_refl)
    as (doc1 & out & Hrun & Hp1).
  exists doc1. eexists. split; [exact Hrun|].
  symmetry. exact (Forall2_length Hp1).
Defined.

(* ------------------------------------------------------------------ *)
(** * Angles other than 180 degrees *)

Local Open Scope Q_scope.

(** X14.  [_draw_name] turns the frame for the angle 180 only.  Called with
    any other angle it does what it does for the angle 0: the name is drawn
    in the frame the call found, unrotated, with its origin at
    [(x - w / 2, y)] for its measured width [w]. *)
Theorem draw_name_other_angles (W : World) (self : self_) (name : str)
                               (x y : Q) (rotation : Z) (d : Draw) :
  rotation <> 180%Z ->
  _draw_name W self name x y rotation d = _draw_name W self name x y 0 d
  /\ forall g, exists d' ops,
       _draw_name W self name x y rotation d = Ok tt d'
       /\ Canvas._code (c d') = Canvas._code (c d) ++ ops
       /\ render_from g ops
          = [Text (g_frame (fst g))
                  (Some (font_name_ self, font_size self name))
                  (x - string_width W name (font_name_ self)
                                    (font_size self name) / 2)
                  y name].
Proof.
  intros Hrot. apply Z.eqb_neq in Hrot.
  destruct d as [[fn ps code pages] pr].
  change {| c := {| Canvas._filename := fn; Canvas._pagesize := ps;
                    Canvas._code := code; Canvas._pages := pages |};
            proc := pr |}
    with (mkDraw fn ps code pages pr).
  split.
  - rewrite !draw_name_run. unfold name_ops.
    rewrite Hrot. reflexivity.
  - intros [cur saved]. rewrite draw_name_run.
    eexists. eexists. split; [reflexivity|]. split; [reflexivity|].
    unfold name_ops. rewrite Hrot. reflexivity.
Qed.

Lemma draw_name_other_angles_witness :
  let d0 := {| c := Canvas.init Example.out_pdf (A4 Example.W);
               proc := fresh |} in
  _draw_name Example.W Example.g Example.bob 100 200 90 d0
  = _draw_name Example.W Example.g Example.bob 100 200 0 d0.
Proof.
  cbv zeta.
  apply (proj1 (@draw_name_other_angles Example.W Example.g Example.bob
                  100 200 90%Z
                  {| c := Canvas.init Example.out_pdf (A4 Example.W);
                     proc := fresh |}
                  ltac:(discriminate))).
Defined.
